(** * stocknrs: the stock store, its statistics, the category guard and the
      CSV export/import utilities

    A shallow embedding of the TypeScript sources

    - [contexts/StockContext.tsx] in its three versions: the version under
      [attached_assets/project/src/contexts/] (module [AttachedStore]), and the
      two versions concatenated in [unnamed/part_003] (the in-memory store,
      lines 1-197, module [MemoryStore]; the store that mirrors stock changes
      locally, lines 198-570, module [MirrorStore]);
    - [types/stock.ts] ([unnamed/part_002]) for the row types;
    - [client/src/pages/Categories.tsx] (module [CategoriesPage]);
    - [client/src/utils/dataExport.ts] (module [DataExport]);
    - [src/components/Dashboard/StockOverview.tsx] (module [StockOverview]);
    - the budget request dialog of [unnamed/part_000] (module
      [BudgetDialog]).

    Numbers.  Stock quantities, thresholds and prices are JavaScript numbers;
    they are modelled as integers ([Z]), the values the data model gives them.
    The only non-integer number the modelled code can produce from integer
    rows is [NaN] (arithmetic on an absent property), which [JS.num] carries.
    JavaScript adds and multiplies integers exactly as long as operands and
    results lie between -2^53 and 2^53 ([safe_integer]); the embedding is the
    code for such values only, and the properties whose statement gives the
    numeric result of an addition or a product carry that range as a
    hypothesis.  Fractional prices are outside the embedding.

    Strings are [string] (sequences of 8-bit characters); the host functions
    whose result depends on Unicode tables or on the wall clock
    ([toLowerCase], [new Date()]) are parameters of the definitions that call
    them. *)

From Stdlib Require Import ZArith List String Ascii Lia Bool DecimalString.
From stdpp Require Import base gmap strings.
Import ListNotations.

Open Scope string_scope.
Open Scope Z_scope.

(** ** JavaScript values used by the sources *)

Module JS.

(** Primitive values found in exported rows ([any] in [dataExport.ts]). *)
Inductive value : Type :=
| undefined
| null
| boolean (b : bool)
| number (z : Z)
| nan
| text (s : string).

(** [ToBoolean]: what [v || d] and [if (v)] test. *)
Definition truthy (v : value) : bool :=
  match v with
  | undefined | null | nan => false
  | boolean b => b
  | number z => negb (z =? 0)
  | text s => negb (s =? "")%string
  end.

(** [v || d] *)
Definition or_else (v d : value) : value := if truthy v then v else d.

(** Results of numeric operators: an integer or [NaN]. *)
Inductive num : Type :=
| Fin (z : Z)
| NaN.

Definition add (a b : num) : num :=
  match a, b with
  | Fin x, Fin y => Fin (x + y)
  | _, _ => NaN
  end.

Definition mul (a b : num) : num :=
  match a, b with
  | Fin x, Fin y => Fin (x * y)
  | _, _ => NaN
  end.

(** [a <= b] and [a > b]: false as soon as one side is [NaN]. *)
Definition le (a b : num) : bool :=
  match a, b with
  | Fin x, Fin y => x <=? y
  | _, _ => false
  end.

Definition gt (a b : num) : bool :=
  match a, b with
  | Fin x, Fin y => y <? x
  | _, _ => false
  end.

(** [ToNumber(undefined)], the operand a numeric operator sees when the
    property it reads does not exist on the object. *)
Definition of_undefined : num := NaN.

(** [s.includes(t)] *)
Fixpoint includes (s t : string) : bool :=
  String.prefix t s ||
  match s with
  | EmptyString => false
  | String _ s' => includes s' t
  end.

End JS.

(** ** Row types ([types/stock.ts]) *)

Module Product.
Record t : Type := mk {
  id : string;
  name : string;
  sku : string;
  description : option string;
  category_id : string;
  supplier_id : string;
  current_stock : Z;
  min_stock : Z;
  max_stock : option Z;
  unit_price : Z;
  barcode : option string;
  location : option string;
  created_at : string;
  updated_at : string
}.
End Product.

Module StockMovement.
Record t : Type := mk {
  id : string;
  product_id : string;
  type : string;
  quantity : Z;
  reason : string;
  reference : option string;
  notes : option string;
  created_at : string;
  created_by : option string
}.
End StockMovement.

Module Category.
Record t : Type := mk {
  id : string;
  name : string;
  description : option string;
  created_at : option string
}.
End Category.

Module Supplier.
Record t : Type := mk {
  id : string;
  name : string;
  email : string;
  phone : string;
  address : string;
  created_at : option string
}.
End Supplier.

Inductive StockLevel : Type := high | medium | low | out.

Definition StockLevel_eqb (a b : StockLevel) : bool :=
  match a, b with
  | high, high | medium, medium | low, low | out, out => true
  | _, _ => false
  end.

Record StockStats : Type := {
  totalProducts : nat;
  totalValue : JS.num;
  lowStockItems : nat;
  outOfStockItems : nat;
  recentMovements : nat
}.

Record StockFilter : Type := {
  category : option string;
  supplier : option string;
  stockLevel : option StockLevel;
  searchTerm : option string
}.

(** ** The store state and its actions (identical in the three versions) *)

Record StockState : Type := {
  products : list Product.t;
  movements : list StockMovement.t;
  categories : list Category.t;
  suppliers : list Supplier.t;
  stats : StockStats;
  filter : StockFilter;
  loading : bool
}.

(** The thirteen members of the union [StockAction], by their [type] tag. *)
Inductive ActionTag : Type :=
| SET_PRODUCTS | SET_CATEGORIES | SET_SUPPLIERS | SET_MOVEMENTS
| ADD_PRODUCT | UPDATE_PRODUCT | DELETE_PRODUCT | ADD_MOVEMENT
| ADD_CATEGORY | ADD_SUPPLIER | SET_FILTER | SET_LOADING
| CALCULATE_STATS.

(** The tags the reducers' [switch] has a [case] for. *)
Definition handled_types : list string :=
  [ "SET_PRODUCTS"; "SET_CATEGORIES"; "SET_SUPPLIERS"; "SET_MOVEMENTS";
    "ADD_PRODUCT"; "UPDATE_PRODUCT"; "DELETE_PRODUCT"; "ADD_MOVEMENT";
    "ADD_CATEGORY"; "ADD_SUPPLIER"; "SET_FILTER"; "SET_LOADING";
    "CALCULATE_STATS" ].

(** Which [case] label, if any, the string [action.type] is strictly equal
    to. *)
Definition case_of (type : string) : option ActionTag :=
  if (type =? "SET_PRODUCTS")%string then Some SET_PRODUCTS
  else if (type =? "SET_CATEGORIES")%string then Some SET_CATEGORIES
  else if (type =? "SET_SUPPLIERS")%string then Some SET_SUPPLIERS
  else if (type =? "SET_MOVEMENTS")%string then Some SET_MOVEMENTS
  else if (type =? "ADD_PRODUCT")%string then Some ADD_PRODUCT
  else if (type =? "UPDATE_PRODUCT")%string then Some UPDATE_PRODUCT
  else if (type =? "DELETE_PRODUCT")%string then Some DELETE_PRODUCT
  else if (type =? "ADD_MOVEMENT")%string then Some ADD_MOVEMENT
  else if (type =? "ADD_CATEGORY")%string then Some ADD_CATEGORY
  else if (type =? "ADD_SUPPLIER")%string then Some ADD_SUPPLIER
  else if (type =? "SET_FILTER")%string then Some SET_FILTER
  else if (type =? "SET_LOADING")%string then Some SET_LOADING
  else if (type =? "CALCULATE_STATS")%string then Some CALCULATE_STATS
  else None.

(** The payload the union prescribes for each tag; an object with any other
    tag may carry anything. *)
Definition payload_of (tag : option ActionTag) : Type :=
  match tag with
  | Some SET_PRODUCTS => list Product.t
  | Some SET_CATEGORIES => list Category.t
  | Some SET_SUPPLIERS => list Supplier.t
  | Some SET_MOVEMENTS => list StockMovement.t
  | Some ADD_PRODUCT => Product.t
  | Some UPDATE_PRODUCT => Product.t
  | Some DELETE_PRODUCT => string
  | Some ADD_MOVEMENT => StockMovement.t
  | Some ADD_CATEGORY => Category.t
  | Some ADD_SUPPLIER => Supplier.t
  | Some SET_FILTER => StockFilter
  | Some SET_LOADING => bool
  | Some CALCULATE_STATS => unit
  | None => JS.value
  end.

(** A dispatched action object: its [type] string and its [payload]. *)
Record StockAction : Type := {
  type : string;
  payload : payload_of (case_of type)
}.

(** The wall clock as the sources read it. *)
Record Clock : Type := {
  (** [new Date().toISOString()] *)
  nowISO : string;
  (** [new Date(created_at) >= d], [d] being seven days before now *)
  withinLastWeek : string -> bool
}.

Definition initialStats : StockStats :=
  {| totalProducts := 0; totalValue := JS.Fin 0; lowStockItems := 0;
     outOfStockItems := 0; recentMovements := 0 |}.

Definition emptyFilter : StockFilter :=
  {| category := None; supplier := None; stockLevel := None;
     searchTerm := None |}.

(** Spread updates [{ ...state, slice: v }], one per slice. *)
Definition with_products (state : StockState) (v : list Product.t)
    : StockState :=
  {| products := v; movements := movements state;
     categories := categories state; suppliers := suppliers state;
     stats := stats state; filter := filter state; loading := loading state |}.

Definition with_movements (state : StockState) (v : list StockMovement.t)
    : StockState :=
  {| products := products state; movements := v;
     categories := categories state; suppliers := suppliers state;
     stats := stats state; filter := filter state; loading := loading state |}.

Definition with_categories (state : StockState) (v : list Category.t)
    : StockState :=
  {| products := products state; movements := movements state;
     categories := v; suppliers := suppliers state;
     stats := stats state; filter := filter state; loading := loading state |}.

Definition with_suppliers (state : StockState) (v : list Supplier.t)
    : StockState :=
  {| products := products state; movements := movements state;
     categories := categories state; suppliers := v;
     stats := stats state; filter := filter state; loading := loading state |}.

Definition with_stats (state : StockState) (v : StockStats) : StockState :=
  {| products := products state; movements := movements state;
     categories := categories state; suppliers := suppliers state;
     stats := v; filter := filter state; loading := loading state |}.

Definition with_filter (state : StockState) (v : StockFilter) : StockState :=
  {| products := products state; movements := movements state;
     categories := categories state; suppliers := suppliers state;
     stats := stats state; filter := v; loading := loading state |}.

Definition with_loading (state : StockState) (v : bool) : StockState :=
  {| products := products state; movements := movements state;
     categories := categories state; suppliers := suppliers state;
     stats := stats state; filter := filter state; loading := v |}.

(** [{ ...product, current_stock: newStock, updated_at: stamp }] *)
Definition restock (product : Product.t) (newStock : Z) (stamp : string)
    : Product.t :=
  {| Product.id := Product.id product;
     Product.name := Product.name product;
     Product.sku := Product.sku product;
     Product.description := Product.description product;
     Product.category_id := Product.category_id product;
     Product.supplier_id := Product.supplier_id product;
     Product.current_stock := newStock;
     Product.min_stock := Product.min_stock product;
     Product.max_stock := Product.max_stock product;
     Product.unit_price := Product.unit_price product;
     Product.barcode := Product.barcode product;
     Product.location := Product.location product;
     Product.created_at := Product.created_at product;
     Product.updated_at := stamp |}.

(** Action objects as the stores build them. *)
Definition set_products (payload : list Product.t) : StockAction :=
  {| type := "SET_PRODUCTS"; payload := payload |}.

Definition set_categories (payload : list Category.t) : StockAction :=
  {| type := "SET_CATEGORIES"; payload := payload |}.

Definition add_movement (payload : StockMovement.t) : StockAction :=
  {| type := "ADD_MOVEMENT"; payload := payload |}.

Definition calculate_stats : StockAction :=
  {| type := "CALCULATE_STATS"; payload := tt |}.

(** ** [attached_assets/project/src/contexts/StockContext.tsx] *)

Module AttachedStore.

Definition calculateStats (clock : Clock) (products : list Product.t)
    (movements : list StockMovement.t) : StockStats :=
  let totalProducts := length products in
  let totalValue :=
    fold_left (fun sum product =>
                 sum + Product.current_stock product * Product.unit_price product)
              products 0 in
  let lowStockItems :=
    length (List.filter (fun p =>
              (Product.current_stock p <=? Product.min_stock p)
              && (0 <? Product.current_stock p)) products) in
  let outOfStockItems :=
    length (List.filter (fun p => Product.current_stock p =? 0) products) in
  let recentMovements :=
    length (List.filter (fun m =>
              withinLastWeek clock (StockMovement.created_at m)) movements) in
  {| totalProducts := totalProducts;
     totalValue := JS.Fin totalValue;
     lowStockItems := lowStockItems;
     outOfStockItems := outOfStockItems;
     recentMovements := recentMovements |}.

Definition stockReducer (clock : Clock) (state : StockState)
    (action : StockAction) : StockState :=
  match case_of (type action) as tag return payload_of tag -> StockState with
  | Some SET_PRODUCTS => fun payload => with_products state payload
  | Some SET_MOVEMENTS => fun payload => with_movements state payload
  | Some SET_CATEGORIES => fun payload => with_categories state payload
  | Some SET_SUPPLIERS => fun payload => with_suppliers state payload
  | Some ADD_PRODUCT => fun payload =>
      with_products state (products state ++ [payload])
  | Some UPDATE_PRODUCT => fun payload =>
      with_products state
        (map (fun p => if (Product.id p =? Product.id payload)%string
                       then payload else p) (products state))
  | Some DELETE_PRODUCT => fun payload =>
      with_products state
        (List.filter (fun p => negb (Product.id p =? payload)%string)
                     (products state))
  | Some ADD_MOVEMENT => fun payload =>
      with_movements state (payload :: movements state)
  | Some ADD_CATEGORY => fun payload =>
      with_categories state (categories state ++ [payload])
  | Some ADD_SUPPLIER => fun payload =>
      with_suppliers state (suppliers state ++ [payload])
  | Some SET_FILTER => fun payload => with_filter state payload
  | Some SET_LOADING => fun payload => with_loading state payload
  | Some CALCULATE_STATS => fun _ =>
      with_stats state
        (calculateStats clock (products state) (movements state))
  | None => fun _ => state
  end (payload action).

Definition getStockLevel (product : Product.t) : StockLevel :=
  if Product.current_stock product =? 0 then out
  else if Product.current_stock product <=? Product.min_stock product then low
  else if Product.current_stock product <=? Product.min_stock product * 2
  then medium
  else high.

(** [toLowerCase] is [String.prototype.toLowerCase]. *)
Definition getFilteredProducts (toLowerCase : string -> string)
    (state : StockState) : list Product.t :=
  let filtered := products state in
  let filtered :=
    match searchTerm (filter state) with
    | Some term =>
        if (term =? "")%string then filtered
        else
          let searchLower := toLowerCase term in
          List.filter (fun product =>
            JS.includes (toLowerCase (Product.name product)) searchLower
            || JS.includes (toLowerCase (Product.sku product)) searchLower
            || match Product.description product with
               | Some d => JS.includes (toLowerCase d) searchLower
               | None => false
               end) filtered
    | None => filtered
    end in
  let filtered :=
    match category (filter state) with
    | Some c =>
        if (c =? "")%string then filtered
        else List.filter (fun product =>
               (Product.category_id product =? c)%string) filtered
    | None => filtered
    end in
  let filtered :=
    match supplier (filter state) with
    | Some s =>
        if (s =? "")%string then filtered
        else List.filter (fun product =>
               (Product.supplier_id product =? s)%string) filtered
    | None => filtered
    end in
  let filtered :=
    match stockLevel (filter state) with
    | Some l =>
        List.filter (fun product =>
          StockLevel_eqb (getStockLevel product) l) filtered
    | None => filtered
    end in
  filtered.

End AttachedStore.

(** ** [unnamed/part_003], lines 1-197: the in-memory store *)

Module MemoryStore.

Definition calculateStats (clock : Clock) (products : list Product.t)
    (movements : list StockMovement.t) : StockStats :=
  let totalProducts := length products in
  let totalValue :=
    fold_left (fun sum p =>
                 sum + Product.current_stock p * Product.unit_price p)
              products 0 in
  let lowStockItems :=
    length (List.filter (fun p =>
              Product.current_stock p <=? Product.min_stock p) products) in
  let outOfStockItems :=
    length (List.filter (fun p => Product.current_stock p =? 0) products) in
  let recentMovements :=
    length (List.filter (fun m =>
              withinLastWeek clock (StockMovement.created_at m)) movements) in
  {| totalProducts := totalProducts;
     totalValue := JS.Fin totalValue;
     lowStockItems := lowStockItems;
     outOfStockItems := outOfStockItems;
     recentMovements := recentMovements |}.

Definition stockReducer (clock : Clock) (state : StockState)
    (action : StockAction) : StockState :=
  match case_of (type action) as tag return payload_of tag -> StockState with
  | Some SET_PRODUCTS => fun payload => with_products state payload
  | Some SET_CATEGORIES => fun payload => with_categories state payload
  | Some SET_SUPPLIERS => fun payload => with_suppliers state payload
  | Some SET_MOVEMENTS => fun payload => with_movements state payload
  | Some ADD_PRODUCT => fun payload =>
      with_products state (products state ++ [payload])
  | Some UPDATE_PRODUCT => fun payload =>
      with_products state
        (map (fun p => if (Product.id p =? Product.id payload)%string
                       then payload else p) (products state))
  | Some DELETE_PRODUCT => fun payload =>
      with_products state
        (List.filter (fun p => negb (Product.id p =? payload)%string)
                     (products state))
  | Some ADD_MOVEMENT => fun payload =>
      with_movements state (payload :: movements state)
  | Some ADD_CATEGORY => fun payload =>
      with_categories state (categories state ++ [payload])
  | Some ADD_SUPPLIER => fun payload =>
      with_suppliers state (suppliers state ++ [payload])
  | Some SET_FILTER => fun payload => with_filter state payload
  | Some SET_LOADING => fun payload => with_loading state payload
  | Some CALCULATE_STATS => fun _ =>
      let stats := calculateStats clock (products state) (movements state) in
      with_stats state stats
  | None => fun _ => state
  end (payload action).

(** [product.max_stock && ...]: the bound counts when present and not 0. *)
Definition getStockLevel (product : Product.t) : StockLevel :=
  if Product.current_stock product =? 0 then out
  else if Product.current_stock product <=? Product.min_stock product then low
  else if match Product.max_stock product with
          | Some m => negb (m =? 0) && (m <=? Product.current_stock product)
          | None => false
          end
  then high
  else medium.

Definition getFilteredProducts (toLowerCase : string -> string)
    (state : StockState) : list Product.t :=
  let given (o : option string) : bool :=
    match o with Some s => negb (s =? "")%string | None => false end in
  let same (x : string) (o : option string) : bool :=
    match o with Some s => (x =? s)%string | None => false end in
  List.filter (fun product =>
    let matchesSearch :=
      negb (given (searchTerm (filter state)))
      || JS.includes (toLowerCase (Product.name product))
           (toLowerCase (default "" (searchTerm (filter state))))
      || JS.includes (toLowerCase (Product.sku product))
           (toLowerCase (default "" (searchTerm (filter state)))) in
    let matchesCategory :=
      negb (given (category (filter state)))
      || same (Product.category_id product) (category (filter state)) in
    let matchesSupplier :=
      negb (given (supplier (filter state)))
      || same (Product.supplier_id product) (supplier (filter state)) in
    let stockLevel' := getStockLevel product in
    let matchesStockLevel :=
      match stockLevel (filter state) with
      | None => true
      | Some l => StockLevel_eqb stockLevel' l
      end in
    matchesSearch && matchesCategory && matchesSupplier && matchesStockLevel)
    (products state).

End MemoryStore.

(** ** The external data store *)

Module Supabase.

(** The requests the modelled code sends. *)
Inductive request : Type :=
| delete_category (id : string)
| select_categories
| select_product_categories.

(** Modelled from the spec: the external data store of section 6
    ([select(filter?) -> rows], [delete(id) -> ok], each reporting success
    or failure), which is a service outside the repository.  The store
    holds the category and product tables; [faulty] tells which requests
    it answers with an error, [ordered] is the order its [select] on
    categories presents rows in, and [calls] logs the requests received,
    latest first. *)
Record remote : Type := {
  category_rows : list Category.t;
  product_rows : list Product.t;
  faulty : request -> bool;
  ordered : list Category.t -> list Category.t;
  calls : list request
}.

Definition received (rq : request) (r : remote) (rows : list Category.t)
    : remote :=
  {| category_rows := rows; product_rows := product_rows r;
     faulty := faulty r; ordered := ordered r; calls := rq :: calls r |}.

(** [from('categories').delete().eq('id', id)]: [Some tt] on success,
    [None] when the store reports an error. *)
Definition delete_from_categories (id : string) (r : remote)
    : option unit * remote :=
  let rq := delete_category id in
  if faulty r rq then (None, received rq r (category_rows r))
  else (Some tt,
        received rq r
          (List.filter (fun c => negb (Category.id c =? id)%string)
                       (category_rows r))).

(** [from('categories').select('*').order('created_at', ...)] *)
Definition select_all_categories (r : remote)
    : option (list Category.t) * remote :=
  let rq := select_categories in
  if faulty r rq then (None, received rq r (category_rows r))
  else (Some (ordered r (category_rows r)), received rq r (category_rows r)).

(** [from('products').select('category_id')] *)
Definition select_category_ids (r : remote) : option (list string) * remote :=
  let rq := select_product_categories in
  if faulty r rq then (None, received rq r (category_rows r))
  else (Some (map Product.category_id (product_rows r)),
        received rq r (category_rows r)).

(** The number of product rows that reference a category. *)
Definition referencing (id : string) (r : remote) : nat :=
  length (List.filter (fun p => (Product.category_id p =? id)%string)
                      (product_rows r)).

End Supabase.

(** ** [unnamed/part_003], lines 198-570: the store that mirrors stock
       changes locally *)

Module MirrorStore.

(** [calculateStats] reads [currentStock], [unitPrice] and [minStock];
    the rows carry [current_stock], [unit_price] and [min_stock], so each
    read yields [undefined]. *)
Definition currentStock (p : Product.t) : JS.num := JS.of_undefined.
Definition unitPrice (p : Product.t) : JS.num := JS.of_undefined.
Definition minStock (p : Product.t) : JS.num := JS.of_undefined.

(** [undefined === 0] is false, as is [NaN === 0]. *)
Definition is_zero (a : JS.num) : bool :=
  match a with JS.Fin x => x =? 0 | JS.NaN => false end.

Definition calculateStats (clock : Clock) (products : list Product.t)
    (movements : list StockMovement.t) : StockStats :=
  let totalProducts := length products in
  let totalValue :=
    fold_left (fun sum product =>
                 JS.add sum (JS.mul (currentStock product) (unitPrice product)))
              products (JS.Fin 0) in
  let lowStockItems :=
    length (List.filter (fun p =>
              JS.le (currentStock p) (minStock p)
              && JS.gt (currentStock p) (JS.Fin 0)) products) in
  let outOfStockItems :=
    length (List.filter (fun p => is_zero (currentStock p)) products) in
  let recentMovements :=
    length (List.filter (fun m =>
              withinLastWeek clock (StockMovement.created_at m)) movements) in
  {| totalProducts := totalProducts;
     totalValue := totalValue;
     lowStockItems := lowStockItems;
     outOfStockItems := outOfStockItems;
     recentMovements := recentMovements |}.

Definition stockReducer (clock : Clock) (state : StockState)
    (action : StockAction) : StockState :=
  match case_of (type action) as tag return payload_of tag -> StockState with
  | Some SET_PRODUCTS => fun payload => with_products state payload
  | Some SET_CATEGORIES => fun payload => with_categories state payload
  | Some SET_SUPPLIERS => fun payload => with_suppliers state payload
  | Some SET_MOVEMENTS => fun payload => with_movements state payload
  | Some ADD_PRODUCT => fun payload =>
      with_products state (products state ++ [payload])
  | Some UPDATE_PRODUCT => fun payload =>
      with_products state
        (map (fun p => if (Product.id p =? Product.id payload)%string
                       then payload else p) (products state))
  | Some DELETE_PRODUCT => fun payload =>
      with_products state
        (List.filter (fun p => negb (Product.id p =? payload)%string)
                     (products state))
  | Some ADD_MOVEMENT => fun payload =>
      let updatedProducts :=
        map (fun product =>
               if (Product.id product =? StockMovement.product_id payload)%string
               then
                 let newStock :=
                   if (StockMovement.type payload =? "in")%string
                   then Product.current_stock product
                        + StockMovement.quantity payload
                   else Z.max 0 (Product.current_stock product
                                 - StockMovement.quantity payload) in
                 restock product newStock (nowISO clock)
               else product)
            (products state) in
      with_movements (with_products state updatedProducts)
                     (payload :: movements state)
  | Some ADD_CATEGORY => fun payload =>
      with_categories state (categories state ++ [payload])
  | Some ADD_SUPPLIER => fun payload =>
      with_suppliers state (suppliers state ++ [payload])
  | Some SET_FILTER => fun payload => with_filter state payload
  | Some SET_LOADING => fun payload => with_loading state payload
  | Some CALCULATE_STATS => fun _ =>
      with_stats state
        (calculateStats clock (products state) (movements state))
  | None => fun _ => state
  end (payload action).

Definition getStockLevel (product : Product.t) : StockLevel :=
  if Product.current_stock product =? 0 then out
  else if Product.current_stock product <=? Product.min_stock product then low
  else if Product.current_stock product <=? Product.min_stock product * 2
  then medium
  else high.

Definition getFilteredProducts (toLowerCase : string -> string)
    (state : StockState) : list Product.t :=
  let filtered := products state in
  let filtered :=
    match searchTerm (filter state) with
    | Some term =>
        if (term =? "")%string then filtered
        else
          let searchLower := toLowerCase term in
          List.filter (fun product =>
            JS.includes (toLowerCase (Product.name product)) searchLower
            || JS.includes (toLowerCase (Product.sku product)) searchLower
            || match Product.description product with
               | Some d => JS.includes (toLowerCase d) searchLower
               | None => false
               end) filtered
    | None => filtered
    end in
  let filtered :=
    match category (filter state) with
    | Some c =>
        if (c =? "")%string then filtered
        else List.filter (fun product =>
               (Product.category_id product =? c)%string) filtered
    | None => filtered
    end in
  let filtered :=
    match supplier (filter state) with
    | Some s =>
        if (s =? "")%string then filtered
        else List.filter (fun product =>
               (Product.supplier_id product =? s)%string) filtered
    | None => filtered
    end in
  let filtered :=
    match stockLevel (filter state) with
    | Some l =>
        List.filter (fun product =>
          StockLevel_eqb (getStockLevel product) l) filtered
    | None => filtered
    end in
  filtered.

(** [deleteCategory]: one delete request, then on success the dispatch of
    [SET_CATEGORIES] with the category filtered out; on error only a
    console message. *)
Definition deleteCategory (clock : Clock) (id : string)
    (state : StockState) (r : Supabase.remote) : StockState * Supabase.remote :=
  match Supabase.delete_from_categories id r with
  | (None, r') => (state, r')
  | (Some _, r') =>
      (stockReducer clock state
         (set_categories
            (List.filter (fun c => negb (Category.id c =? id)%string)
                         (categories state))),
       r')
  end.

End MirrorStore.

(** ** [client/src/pages/Categories.tsx] *)

Module CategoriesPage.

(** The notifications the page shows, by message. *)
Inductive toast : Type :=
| cannot_delete (productCount : nat)
| deleted
| delete_failed
| load_failed.

(** The component state; [toasts] logs the notifications, latest first. *)
Record page : Type := {
  categories : list Category.t;
  productCounts : gmap string nat;
  isLoading : bool;
  toasts : list toast
}.

Definition notify (t : toast) (p : page) : page :=
  {| categories := categories p; productCounts := productCounts p;
     isLoading := isLoading p; toasts := t :: toasts p |}.

Definition loaded (p : page) : page :=
  {| categories := categories p; productCounts := productCounts p;
     isLoading := false; toasts := toasts p |}.

(** [counts[id] = (counts[id] || 0) + 1] over the fetched rows. *)
Definition countProducts (category_ids : list string) : gmap string nat :=
  fold_left (fun counts category_id =>
               <[category_id := (default 0 (counts !! category_id) + 1)%nat]> counts)
            category_ids ∅.

Definition fetchCategories (p : page) (r : Supabase.remote)
    : page * Supabase.remote :=
  match Supabase.select_all_categories r with
  | (None, r1) => (loaded (notify load_failed p), r1)
  | (Some categoriesData, r1) =>
      match Supabase.select_category_ids r1 with
      | (None, r2) => (loaded (notify load_failed p), r2)
      | (Some productsData, r2) =>
          (loaded {| categories := categoriesData;
                     productCounts := countProducts productsData;
                     isLoading := isLoading p;
                     toasts := toasts p |},
           r2)
      end
  end.

(** The refresh started by a successful delete is followed to its end. *)
Definition handleDeleteCategory (categoryId : string) (p : page)
    (r : Supabase.remote) : page * Supabase.remote :=
  let productCount := default 0%nat (productCounts p !! categoryId) in
  if (0 <? productCount)%nat then (notify (cannot_delete productCount) p, r)
  else
    match Supabase.delete_from_categories categoryId r with
    | (None, r') => (notify delete_failed p, r')
    | (Some _, r') => fetchCategories (notify deleted p) r'
    end.

End CategoriesPage.

(** ** [client/src/utils/dataExport.ts] *)

Module DataExport.

(** A plain object: its own properties in insertion order (the order
    [Object.keys] lists keys that are not array indices in).  Keys that are
    array indices are listed first by JavaScript, and an assignment to
    [__proto__] adds no property: the embedding is the code for the other
    keys ([ordinary_key]). *)
Definition object (V : Type) : Type := list (string * V).

(** [Object.keys(o)], [Object.values(o)], [o[k]] and [o[k] = v]. *)
Definition keys {V} (o : object V) : list string := map fst o.
Definition values {V} (o : object V) : list V := map snd o.

Fixpoint get {V} (o : object V) (k : string) : option V :=
  match o with
  | [] => None
  | (k', v) :: o' => if (k' =? k)%string then Some v else get o' k
  end.

Fixpoint put {V} (o : object V) (k : string) (v : V) : object V :=
  match o with
  | [] => [(k, v)]
  | (k', v') :: o' =>
      if (k' =? k)%string then (k', v) :: o' else (k', v') :: put o' k v
  end.

(** [row[header]]: [undefined] when the row has no such property. *)
Definition field (row : object JS.value) (header : string) : JS.value :=
  default JS.undefined (get row header).

Definition hex_digit (n : nat) : ascii :=
  nth n (list_ascii_of_string "0123456789abcdef") "0"%char.

(** The double-quote character, code 34. *)
Definition quote : string := String (ascii_of_nat 34) "".

(** The escape [JSON.stringify] writes for one character of a string. *)
Definition escape_char (c : ascii) : string :=
  let n := nat_of_ascii c in
  if (n =? 34)%nat then "\" +:+ quote
  else if (n =? 92)%nat then "\\"
  else if (n =? 8)%nat then "\b"
  else if (n =? 12)%nat then "\f"
  else if (n =? 10)%nat then "\n"
  else if (n =? 13)%nat then "\r"
  else if (n =? 9)%nat then "\t"
  else if (n <? 32)%nat
       then "\u00" +:+ String (hex_digit (n / 16)) (String (hex_digit (n mod 16)) "")
  else String c "".

Fixpoint escape (s : string) : string :=
  match s with
  | EmptyString => ""
  | String c s' => escape_char c +:+ escape s'
  end.

(** [JSON.stringify(v)], as [join] writes it.  A cell only ever holds a
    truthy primitive or the empty string; for the other values the text is
    what JavaScript gives ([undefined] is joined as nothing).  Integers are
    written in decimal, as JavaScript does below 10^21. *)
Definition stringify (v : JS.value) : string :=
  match v with
  | JS.text s => quote +:+ escape s +:+ quote
  | JS.number z => NilZero.string_of_int (Z.to_int z)
  | JS.boolean true => "true"
  | JS.boolean false => "false"
  | JS.null | JS.nan => "null"
  | JS.undefined => EmptyString
  end.

Definition comma : ascii := ","%char.
Definition newline : ascii := ascii_of_nat 10.

(** [s.split(sep)] for a one-character separator: never empty. *)
Fixpoint split (sep : ascii) (s : string) : list string :=
  match s with
  | EmptyString => [EmptyString]
  | String c s' =>
      if Ascii.eqb c sep then EmptyString :: split sep s'
      else match split sep s' with
           | [] => [String c EmptyString]
           | piece :: pieces => String c piece :: pieces
           end
  end.

(** [l.join(sep)] *)
Definition join (sep : ascii) (l : list string) : string :=
  String.concat (String sep EmptyString) l.

(** One cell: [JSON.stringify(row[header] || '')]. *)
Definition cell (row : object JS.value) (header : string) : string :=
  stringify (JS.or_else (field row header) (JS.text EmptyString)).

(** The text [exportDataToCSV] hands to the browser as the file to
    download; [None] when it returns without producing a file. *)
Definition exportDataToCSV (data : list (object JS.value)) : option string :=
  match data with
  | [] => None
  | first :: _ =>
      let headers := keys first in
      let csvContent :=
        join newline
          (join comma headers
           :: map (fun row => join comma (map (cell row) headers)) data) in
      Some csvContent
  end.

(** [s.replace(re, '')], [re] matching every double-quote character. *)
Fixpoint strip_quotes (s : string) : string :=
  match s with
  | EmptyString => EmptyString
  | String c s' =>
      if (nat_of_ascii c =? 34)%nat then strip_quotes s'
      else String c (strip_quotes s')
  end.

(** The array [parseCSVFile] resolves with, for a file whose text is [csv]. *)
Definition parseCSVFile (csv : string) : list (object string) :=
  let lines := split newline csv in
  let headers := map strip_quotes (split comma (hd EmptyString lines)) in
  let data :=
    List.filter
      (fun obj => existsb (fun v => negb (v =? EmptyString)%string) (values obj))
      (map (fun line =>
              let values := map strip_quotes (split comma line) in
              fold_left (fun obj '(index, header) =>
                           put obj header (nth index values EmptyString))
                        (combine (seq 0 (length headers)) headers) [])
           (tl lines)) in
  data.

End DataExport.

(** ** [src/components/Dashboard/StockOverview.tsx] *)

Module StockOverview.

(** The badge levels of the overview. *)
Inductive level : Type := out | low | normal.

Definition lowStockItems (products : list Product.t) : list Product.t :=
  List.filter (fun p => Product.current_stock p <=? Product.min_stock p)
              products.

Definition outOfStockItems (products : list Product.t) : list Product.t :=
  List.filter (fun p => Product.current_stock p =? 0) products.

Definition getStockLevel (product : Product.t) : level :=
  if Product.current_stock product =? 0 then out
  else if Product.current_stock product <=? Product.min_stock product then low
  else normal.

(** Whether the alert summary is rendered:
    [lowStockItems.length > 0 || outOfStockItems.length > 0]. *)
Definition alertShown (products : list Product.t) : bool :=
  (0 <? length (lowStockItems products))%nat
  || (0 <? length (outOfStockItems products))%nat.

(** What one alert panel lists: [items.slice(0, 3)], and the number it
    announces as further items when [items.length > 3]. *)
Definition listed (items : list Product.t) : list Product.t := firstn 3 items.

Definition further (items : list Product.t) : option nat :=
  if (3 <? length items)%nat then Some (length items - 3)%nat else None.

End StockOverview.

(** ** [unnamed/part_000]: the budget request dialog *)

Module BudgetDialog.

Record MaterialItem : Type := {
  item : string;
  quantity : string
}.

Record BudgetRequestForm : Type := {
  requester : string;
  request_date : string;
  account_code : string;
  amount : string;
  note : string;
  material_list : list MaterialItem
}.

Definition blankItem : MaterialItem := {| item := ""; quantity := "" |}.

(** The form of a new request, [today] being the current date. *)
Definition newForm (today : string) : BudgetRequestForm :=
  {| requester := ""; request_date := today; account_code := "";
     amount := ""; note := ""; material_list := [blankItem] |}.

(** [{ ...formData, material_list: l }] *)
Definition with_material_list (formData : BudgetRequestForm)
    (l : list MaterialItem) : BudgetRequestForm :=
  {| requester := requester formData;
     request_date := request_date formData;
     account_code := account_code formData;
     amount := amount formData;
     note := note formData;
     material_list := l |}.

Definition addMaterialItem (formData : BudgetRequestForm) : BudgetRequestForm :=
  with_material_list formData (material_list formData ++ [blankItem]).

(** [l.filter((_, i) => keep(i))] *)
Definition filter_index {A : Type} (keep : nat -> bool) (l : list A) : list A :=
  map snd (List.filter (fun '(i, _) => keep i) (combine (seq 0 (length l)) l)).

Definition removeMaterialItem (index : nat) (formData : BudgetRequestForm)
    : BudgetRequestForm :=
  let newList :=
    filter_index (fun i => negb (i =? index)%nat) (material_list formData) in
  with_material_list formData
    (if (0 <? length newList)%nat then newList else [blankItem]).

(** The two properties of a material item. *)
Inductive field : Type := item_field | quantity_field.

Definition set_field (f : field) (value : string) (m : MaterialItem)
    : MaterialItem :=
  match f with
  | item_field => {| item := value; quantity := quantity m |}
  | quantity_field => {| item := item m; quantity := value |}
  end.

(** [newList[index][field] = value] on a copy of the list: [None] stands
    for the [TypeError] raised when the list has no item at [index]. *)
Definition updateMaterialItem (index : nat) (f : field) (value : string)
    (formData : BudgetRequestForm) : option BudgetRequestForm :=
  match nth_error (material_list formData) index with
  | None => None
  | Some m =>
      Some (with_material_list formData
              (firstn index (material_list formData)
               ++ set_field f value m
               :: skipn (S index) (material_list formData)))
  end.

Section Submit.

(** JavaScript numbers and [parseFloat], and [String.prototype.trim]. *)
Variable number : Type.
Variable parseFloat : string -> number.
Variable trim : string -> string.

(** The row sent to the store. *)
Record requestData : Type := {
  data_requester : string;
  data_request_date : string;
  data_account_code : string;
  data_amount : number;
  data_note : string;
  data_material_list : list MaterialItem;
  data_status : string
}.

(** [from('budget_requests').update(data).eq('id', id)] and
    [from('budget_requests').insert([data])]. *)
Inductive request : Type :=
| update (id : string) (data : requestData)
| insert (data : requestData).

Inductive toast : Type :=
| required_fields_missing
| saved (updated : bool)
| save_failed.

(** What one run of [handleSubmit] does: the request it sends, if any, the
    notification it shows, whether it calls [onSuccess], and the
    [isSubmitting] flag it leaves. *)
Record outcome : Type := {
  sent : option request;
  shown : toast;
  onSuccess : bool;
  isSubmitting : bool
}.

(** [editRequest] is the id of the request being edited, if any;
    [accepted] tells whether the store answers without error;
    [submitting] is the flag before the run. *)
Definition handleSubmit (editRequest : option string)
    (formData : BudgetRequestForm) (accepted : bool) (submitting : bool)
    : outcome :=
  if (requester formData =? "")%string
     || (account_code formData =? "")%string
     || (amount formData =? "")%string
  then {| sent := None; shown := required_fields_missing;
          onSuccess := false; isSubmitting := submitting |}
  else
    let data :=
      {| data_requester := requester formData;
         data_request_date := request_date formData;
         data_account_code := account_code formData;
         data_amount := parseFloat (amount formData);
         data_note := note formData;
         data_material_list :=
           List.filter (fun m => negb (trim (item m) =? "")%string)
                       (material_list formData);
         data_status := "PENDING" |} in
    let rq :=
      match editRequest with
      | Some id => update id data
      | None => insert data
      end in
    if accepted
    then {| sent := Some rq;
            shown := saved (match editRequest with Some _ => true | None => false end);
            onSuccess := true; isSubmitting := false |}
    else {| sent := Some rq; shown := save_failed;
            onSuccess := false; isSubmitting := false |}.

End Submit.

End BudgetDialog.

(** * Specification vocabulary and sample data *)

Import DataExport.

(** ** Sample data, used to run the definitions on concrete inputs *)

Definition fixedClock : Clock :=
  {| nowISO := "2024-05-01T00:00:00.000Z"; withinLastWeek := fun _ => true |}.

Definition product (id category_id : string) (current_stock min_stock : Z)
    (max_stock : option Z) : Product.t :=
  {| Product.id := id; Product.name := "Widget"; Product.sku := "SKU001";
     Product.description := None; Product.category_id := category_id;
     Product.supplier_id := "supplier-1";
     Product.current_stock := current_stock; Product.min_stock := min_stock;
     Product.max_stock := max_stock; Product.unit_price := 100;
     Product.barcode := None; Product.location := None;
     Product.created_at := "2024-01-01T00:00:00.000Z";
     Product.updated_at := "2024-01-01T00:00:00.000Z" |}.

Definition movement (product_id type : string) (quantity : Z)
    : StockMovement.t :=
  {| StockMovement.id := "m1"; StockMovement.product_id := product_id;
     StockMovement.type := type; StockMovement.quantity := quantity;
     StockMovement.reason := "sale"; StockMovement.reference := None;
     StockMovement.notes := None;
     StockMovement.created_at := "2024-04-30T00:00:00.000Z";
     StockMovement.created_by := None |}.

Definition stateOf (products : list Product.t) (filter : StockFilter)
    : StockState :=
  {| products := products; movements := []; categories := []; suppliers := [];
     stats := initialStats; filter := filter; loading := false |}.

Definition sampleCategory (id name : string) : Category.t :=
  {| Category.id := id; Category.name := name;
     Category.description := None; Category.created_at := None |}.

(** A store holding two categories, the first referenced by one product,
    and a page that has loaded them. *)
Definition sampleRemote : Supabase.remote :=
  {| Supabase.category_rows :=
       [sampleCategory "c1" "Tools"; sampleCategory "c2" "Paper"];
     Supabase.product_rows := [product "p1" "c1" 10 5 None];
     Supabase.faulty := fun _ => false;
     Supabase.ordered := fun rows => rev rows;
     Supabase.calls := [] |}.

Definition samplePage : CategoriesPage.page :=
  fst (CategoriesPage.fetchCategories
         {| CategoriesPage.categories := [];
            CategoriesPage.productCounts := ∅;
            CategoriesPage.isLoading := true;
            CategoriesPage.toasts := [] |}
         sampleRemote).

(** ** The reducers *)

(** What the specification says of [ADD_MOVEMENT], for a reducer [reduce]:
    the movement is put in front of the history, and in the same step every
    product the movement targets gets stock [max(0, s - q)] (direction
    "out") or [s + q] (direction "in"), the other products staying as they
    are. *)
Definition applies_movement
    (reduce : Clock -> StockState -> StockAction -> StockState) : Prop :=
  forall (clock : Clock) (state : StockState) (m : StockMovement.t),
    let state' := reduce clock state (add_movement m) in
    let q := StockMovement.quantity m in
    movements state' = m :: movements state
    /\ length (products state') = length (products state)
    /\ forall (i : nat) (p : Product.t),
         nth_error (products state) i = Some p ->
         exists p',
           nth_error (products state') i = Some p'
           /\ (Product.id p = StockMovement.product_id m ->
               StockMovement.type m = "out" ->
               Product.current_stock p' = Z.max 0 (Product.current_stock p - q)
               /\ 0 <= Product.current_stock p')
           /\ (Product.id p = StockMovement.product_id m ->
               StockMovement.type m = "in" ->
               Product.current_stock p' = Product.current_stock p + q)
           /\ (Product.id p <> StockMovement.product_id m -> p' = p).

(** The stock a movement leaves a targeted product with, in [MirrorStore]. *)
Definition stock_after (m : StockMovement.t) (p : Product.t) : Z :=
  if (StockMovement.type m =? "in")%string
  then Product.current_stock p + StockMovement.quantity m
  else Z.max 0 (Product.current_stock p - StockMovement.quantity m).

(** ** The statistics and the stock-level bucket *)

(** The specification's thresholds: out of stock is [stock == 0], low stock
    is [0 < stock <= min_stock]. *)
Definition is_out (p : Product.t) : bool := Product.current_stock p =? 0.

Definition is_low (p : Product.t) : bool :=
  (0 <? Product.current_stock p)
  && (Product.current_stock p <=? Product.min_stock p).

Definition at_or_below_min (p : Product.t) : bool :=
  Product.current_stock p <=? Product.min_stock p.

Definition count {A : Type} (f : A -> bool) (l : list A) : nat :=
  length (List.filter f l).

(** The bucket in the specification's words. *)
Definition bucket (p : Product.t) : StockLevel :=
  let s := Product.current_stock p in
  let m := Product.min_stock p in
  if s =? 0 then out
  else if (0 <? s) && (s <=? m) then low
  else if (m <? s) && (s <=? 2 * m) then medium
  else high.

(** The bucket of [MemoryStore], which looks at [max_stock]. *)
Definition bucket_by_max (p : Product.t) : StockLevel :=
  let s := Product.current_stock p in
  if s =? 0 then out
  else if s <=? Product.min_stock p then low
  else match Product.max_stock p with
       | Some max => if (max =? 0) || (s <? max) then medium else high
       | None => medium
       end.

(** ** Filtering *)

(** An optional filter string is set when it is present and not empty. *)
Definition is_set (o : option string) : bool :=
  match o with
  | Some s => negb (s =? "")%string
  | None => false
  end.

(** The four optional predicates of the filter [f], each true when unset. *)
Definition matches_search (toLowerCase : string -> string) (f : StockFilter)
    (p : Product.t) : bool :=
  negb (is_set (searchTerm f))
  || (let searchLower := toLowerCase (default "" (searchTerm f)) in
      JS.includes (toLowerCase (Product.name p)) searchLower
      || JS.includes (toLowerCase (Product.sku p)) searchLower
      || match Product.description p with
         | Some d => JS.includes (toLowerCase d) searchLower
         | None => false
         end).

Definition matches_category (f : StockFilter) (p : Product.t) : bool :=
  negb (is_set (category f))
  || (Product.category_id p =? default "" (category f))%string.

Definition matches_supplier (f : StockFilter) (p : Product.t) : bool :=
  negb (is_set (supplier f))
  || (Product.supplier_id p =? default "" (supplier f))%string.

Definition matches_level (f : StockFilter) (p : Product.t) : bool :=
  match stockLevel f with
  | Some l => StockLevel_eqb (AttachedStore.getStockLevel p) l
  | None => true
  end.

(** ** CSV export and import *)

(** A parsed record seen as a record of values, to compare it with the
    exported one. *)
Definition as_values (o : object string) : object JS.value :=
  map (fun '(k, v) => (k, JS.text v)) o.

Definition quote_free (s : string) : Prop :=
  ~ In (ascii_of_nat 34) (list_ascii_of_string s).

(** Every property of [o] has a key satisfying [K] and a value satisfying
    [V]. *)
Definition all_fields (K V : string -> Prop) (o : object string) : Prop :=
  Forall (fun kv => K (fst kv) /\ V (snd kv)) o.

(** The record the import builds for one line. *)
Definition record_of (headers : list string) (line : string) : object string :=
  let values := map strip_quotes (split comma line) in
  fold_left (fun obj '(index, header) =>
               put obj header (nth index values EmptyString))
            (combine (seq 0 (length headers)) headers) [].

(** The test the import keeps a record by. *)
Definition has_content (obj : object string) : bool :=
  existsb (fun v => negb (v =? EmptyString)%string) (values obj).

(** ** Vocabulary for the further properties *)

Definition add_product (payload : Product.t) : StockAction :=
  {| type := "ADD_PRODUCT"; payload := payload |}.

Definition update_product (payload : Product.t) : StockAction :=
  {| type := "UPDATE_PRODUCT"; payload := payload |}.

Definition delete_product (payload : string) : StockAction :=
  {| type := "DELETE_PRODUCT"; payload := payload |}.

(** The [type] string of each handled tag. *)
Definition tag_name (tag : ActionTag) : string :=
  match tag with
  | SET_PRODUCTS => "SET_PRODUCTS"
  | SET_CATEGORIES => "SET_CATEGORIES"
  | SET_SUPPLIERS => "SET_SUPPLIERS"
  | SET_MOVEMENTS => "SET_MOVEMENTS"
  | ADD_PRODUCT => "ADD_PRODUCT"
  | UPDATE_PRODUCT => "UPDATE_PRODUCT"
  | DELETE_PRODUCT => "DELETE_PRODUCT"
  | ADD_MOVEMENT => "ADD_MOVEMENT"
  | ADD_CATEGORY => "ADD_CATEGORY"
  | ADD_SUPPLIER => "ADD_SUPPLIER"
  | SET_FILTER => "SET_FILTER"
  | SET_LOADING => "SET_LOADING"
  | CALCULATE_STATS => "CALCULATE_STATS"
  end.

(** The three versions of the reducer. *)
Definition reducers : list (Clock -> StockState -> StockAction -> StockState) :=
  [ AttachedStore.stockReducer; MemoryStore.stockReducer;
    MirrorStore.stockReducer ].

(** No product of the state holds a negative stock. *)
Definition stock_not_negative (state : StockState) : Prop :=
  Forall (fun p => 0 <= Product.current_stock p) (products state).

(** The state after a sequence of movements, dispatched in order. *)
Definition after_movements (clock : Clock) (state : StockState)
    (ms : list StockMovement.t) : StockState :=
  fold_left (fun s m => MirrorStore.stockReducer clock s (add_movement m))
            ms state.

(** The inventory value: the sum of [current_stock * unit_price]. *)
Definition inventory_value (P : list Product.t) : Z :=
  fold_right Z.add 0 (map (fun p => Product.current_stock p * Product.unit_price p) P).

(** A filter with only the stock level set. *)
Definition only_level (l : StockLevel) : StockFilter :=
  {| category := None; supplier := None; stockLevel := Some l;
     searchTerm := None |}.

(** A filter with only the search term set. *)
Definition only_search (term : string) : StockFilter :=
  {| category := None; supplier := None; stockLevel := None;
     searchTerm := Some term |}.

(** Lower-casing of the letters A to Z, a [toLowerCase] for sample runs. *)
Fixpoint asciiLower (s : string) : string :=
  match s with
  | EmptyString => EmptyString
  | String c s' =>
      let n := nat_of_ascii c in
      String (if (65 <=? n)%nat && (n <=? 90)%nat
              then ascii_of_nat (n + 32) else c)
             (asciiLower s')
  end.

(** The character [c] does not occur in [s]. *)
Definition lacks (c : ascii) (s : string) : Prop :=
  ~ In c (list_ascii_of_string s).



(** The header row the import works with. *)
Definition headers_of (csv : string) : list string :=
  map strip_quotes (split comma (hd EmptyString (split newline csv))).

(** The integers a JavaScript number holds exactly; [+], [-] and [*] on
    them are exact, as in [Z], whenever the result is again one of them. *)
Definition safe_integer (z : Z) : Prop := - 2 ^ 53 <= z <= 2 ^ 53.

Definition is_digit (c : ascii) : bool :=
  (48 <=? nat_of_ascii c)%nat && (nat_of_ascii c <=? 57)%nat.

(** A property name that an object lists in insertion order and stores as
    an own property: not written with digits only (such names are listed
    first, in numeric order) and not [__proto__] (an assignment to it adds
    no property). *)
Definition ordinary_key (k : string) : bool :=
  negb (k =? "__proto__")%string
  && ((k =? "")%string
      || existsb (fun c => negb (is_digit c)) (list_ascii_of_string k)).

(** * Properties *)

(** ** The reducers *)

Lemma case_of_unhandled (type : string) :
  ~ In type handled_types -> case_of type = None.
Proof.
  intros Hout. unfold case_of.
  repeat match goal with
         | |- context [String.eqb type ?tag] =>
             destruct (String.eqb_spec type tag) as [-> | _];
             [ exfalso; apply Hout; unfold handled_types; simpl; tauto | ]
         end.
  reflexivity.
Qed.

Lemma case_of_handled (type : string) :
  In type handled_types -> exists tag, case_of type = Some tag.
Proof.
  unfold handled_types. simpl.
  intros H. repeat (destruct H as [<- | H]; [ eexists; reflexivity | ]).
  contradiction.
Qed.

Lemma handled_types_thirteen :
  length handled_types = 13%nat /\ List.NoDup handled_types.
Proof.
  split; [ reflexivity | ].
  unfold handled_types.
  repeat (apply List.NoDup_cons; [ simpl; intuition discriminate | ]).
  apply List.NoDup_nil.
Qed.

(** C7. In each version of the store, dispatching [SET_PRODUCTS] with the
    same list a second time leaves the state reached by the first dispatch
    as it is. *)
Theorem set_products_idempotent (clock : Clock) (s : StockState)
    (P : list Product.t) :
  AttachedStore.stockReducer clock
    (AttachedStore.stockReducer clock s (set_products P)) (set_products P)
  = AttachedStore.stockReducer clock s (set_products P)
  /\ MemoryStore.stockReducer clock
       (MemoryStore.stockReducer clock s (set_products P)) (set_products P)
     = MemoryStore.stockReducer clock s (set_products P)
  /\ MirrorStore.stockReducer clock
       (MirrorStore.stockReducer clock s (set_products P)) (set_products P)
     = MirrorStore.stockReducer clock s (set_products P).
Proof. repeat split. Qed.

(** C8. Each reducer is a total function, and on an action whose [type] is
    none of the thirteen handled tags it returns the state it was given. *)
Theorem unhandled_action_is_identity (clock : Clock) (s : StockState)
    (action : StockAction) :
  ~ In (type action) handled_types ->
  AttachedStore.stockReducer clock s action = s
  /\ MemoryStore.stockReducer clock s action = s
  /\ MirrorStore.stockReducer clock s action = s.
Proof.
  intros Hout. apply case_of_unhandled in Hout.
  destruct action as [ty pl]; simpl in Hout.
  unfold AttachedStore.stockReducer, MemoryStore.stockReducer,
    MirrorStore.stockReducer; simpl.
  revert pl. rewrite Hout. intros pl. repeat split.
Qed.

Lemma unhandled_action_is_identity_witness :
  let action := {| type := "RESET"; payload := JS.text "everything" |} in
  let s := stateOf [product "p1" "c1" 10 5 None] emptyFilter in
  ~ In (type action) handled_types
  /\ AttachedStore.stockReducer fixedClock s action = s
  /\ MemoryStore.stockReducer fixedClock s action = s
  /\ MirrorStore.stockReducer fixedClock s action = s.
Proof.
  intros action s.
  assert (Hout : ~ In (type action) handled_types).
  { unfold handled_types; simpl. intuition discriminate. }
  split; [ exact Hout | ].
  exact (unhandled_action_is_identity fixedClock s action Hout).
Defined.

Lemma mirror_add_movement_products (clock : Clock) (state : StockState)
    (m : StockMovement.t) :
  products (MirrorStore.stockReducer clock state (add_movement m))
  = map (fun p =>
           if (Product.id p =? StockMovement.product_id m)%string
           then restock p (stock_after m p) (nowISO clock) else p)
        (products state).
Proof. reflexivity. Qed.

Lemma mirror_add_movement_rest (clock : Clock) (state : StockState)
    (m : StockMovement.t) :
  let state' := MirrorStore.stockReducer clock state (add_movement m) in
  movements state' = m :: movements state
  /\ categories state' = categories state
  /\ suppliers state' = suppliers state
  /\ stats state' = stats state
  /\ filter state' = filter state
  /\ loading state' = loading state.
Proof. repeat split. Qed.

Lemma mirror_applies_movement : applies_movement MirrorStore.stockReducer.
Proof.
  intros clock state m state' q. subst state'.
  split; [ reflexivity | ].
  rewrite mirror_add_movement_products.
  split; [ apply length_map | ].
  intros i p Hp.
  rewrite nth_error_map, Hp. simpl.
  eexists. split; [ reflexivity | ].
  unfold stock_after.
  destruct (String.eqb_spec (Product.id p) (StockMovement.product_id m))
    as [Hid | Hid].
  - repeat split.
    + destruct (String.eqb_spec (StockMovement.type m) "in") as [Hin | _];
        [ rewrite Hin in *; discriminate | reflexivity ].
    + destruct (String.eqb_spec (StockMovement.type m) "in") as [Hin | _];
        [ rewrite Hin in *; discriminate | simpl; lia ].
    + intros _ Hin. rewrite Hin. reflexivity.
    + intros Hne. contradiction.
  - repeat split; intros; try contradiction; reflexivity.
Qed.

(** C1 (as amended). The reducer of [MirrorStore] puts the movement in front
    of the history and, in the same step, sets the stock of each targeted
    product to [max(0, s - q)] for "out" (never negative) and to [s + q] for
    "in", leaving the other products as they are; the reducers of
    [AttachedStore] and [MemoryStore] only put the movement in front of the
    history and leave every product as it is. *)
Theorem add_movement_effect :
  applies_movement MirrorStore.stockReducer
  /\ (forall clock state m,
        AttachedStore.stockReducer clock state (add_movement m)
        = with_movements state (m :: movements state))
  /\ (forall clock state m,
        MemoryStore.stockReducer clock state (add_movement m)
        = with_movements state (m :: movements state)).
Proof.
  split; [ exact mirror_applies_movement | ].
  split; reflexivity.
Qed.

(** In [AttachedStore], an "out" movement of 3 against a product holding 10
    leaves the product at 10, where the claim asks for [max(0, 10 - 3)]. *)
Lemma add_movement_attached_keeps_stock :
  let state := stateOf [product "p1" "c1" 10 5 None] emptyFilter in
  let m := movement "p1" "out" 3 in
  map Product.current_stock
      (products (AttachedStore.stockReducer fixedClock state (add_movement m)))
  = [10]
  /\ Z.max 0 (10 - 3) = 7
  /\ ~ applies_movement AttachedStore.stockReducer.
Proof.
  intros state m.
  split; [ reflexivity | ]. split; [ reflexivity | ].
  intros Hclaim.
  destruct (Hclaim fixedClock state m) as (_ & _ & Hstock).
  destruct (Hstock 0%nat (product "p1" "c1" 10 5 None) eq_refl)
    as (p' & Hp' & Hout & _).
  injection Hp' as <-.
  destruct (Hout eq_refl eq_refl) as [Habs _].
  discriminate Habs.
Qed.

(** ** The statistics *)

Lemma count_ext {A : Type} (f g : A -> bool) (l : list A) :
  (forall x, f x = g x) -> count f l = count g l.
Proof.
  intros Hfg. unfold count. f_equal. apply filter_ext. intros x. apply Hfg.
Qed.

Lemma count_disjoint {A : Type} (f g : A -> bool) (l : list A) :
  (forall x, f x = true -> g x = false) ->
  (count f l + count g l <= length l)%nat.
Proof.
  intros Hfg. unfold count.
  induction l as [| x l IH]; simpl; [ lia | ].
  destruct (f x) eqn:Hf.
  - rewrite (Hfg x Hf). simpl. lia.
  - destruct (g x); simpl; lia.
Qed.

Lemma is_low_not_out (p : Product.t) : is_low p = true -> is_out p = false.
Proof. unfold is_low, is_out. lia. Qed.

Lemma out_never_low (p : Product.t) :
  Product.current_stock p = 0 -> is_out p = true /\ is_low p = false.
Proof. unfold is_low, is_out. intros ->. split; reflexivity. Qed.

(** The statistics of [MirrorStore] count nothing: every comparison it makes
    is on an absent property. *)
Lemma mirror_stats_count_nothing (clock : Clock) (P : list Product.t)
    (M : list StockMovement.t) :
  lowStockItems (MirrorStore.calculateStats clock P M) = 0%nat
  /\ outOfStockItems (MirrorStore.calculateStats clock P M) = 0%nat.
Proof.
  unfold MirrorStore.calculateStats; simpl.
  split; induction P as [| p P IH]; simpl; auto.
Qed.

(** C2 (as amended). [calculateStats] of [AttachedStore] returns as
    [lowStockItems] the number of products with
    [0 < current_stock <= min_stock] and as [outOfStockItems] the number
    with [current_stock == 0], so a product with no stock is counted as out
    of stock and never as low, and the two counts together never exceed the
    number of products; [calculateStats] of [MemoryStore] returns as
    [lowStockItems] the number of products with [current_stock <= min_stock],
    out-of-stock ones included. *)
Theorem low_stock_count (clock : Clock) (P : list Product.t)
    (M : list StockMovement.t) :
  (lowStockItems (AttachedStore.calculateStats clock P M) = count is_low P
   /\ outOfStockItems (AttachedStore.calculateStats clock P M) = count is_out P
   /\ (forall p, Product.current_stock p = 0 ->
                 is_out p = true /\ is_low p = false)
   /\ (lowStockItems (AttachedStore.calculateStats clock P M)
       + outOfStockItems (AttachedStore.calculateStats clock P M)
       <= totalProducts (AttachedStore.calculateStats clock P M))%nat)
  /\ (lowStockItems (MemoryStore.calculateStats clock P M)
      = count at_or_below_min P
      /\ outOfStockItems (MemoryStore.calculateStats clock P M)
         = count is_out P).
Proof.
  assert (Hlow : lowStockItems (AttachedStore.calculateStats clock P M)
                 = count is_low P).
  { unfold AttachedStore.calculateStats; simpl.
    apply count_ext. intros p. unfold is_low. apply andb_comm. }
  repeat split.
  - exact Hlow.
  - apply out_never_low; assumption.
  - apply out_never_low; assumption.
  - rewrite Hlow. simpl.
    apply (count_disjoint is_low is_out P is_low_not_out).
Qed.

(** In [MemoryStore], a single product with no stock and a threshold of 5
    makes [lowStockItems] 1, although no product has
    [0 < current_stock <= min_stock]. *)
Lemma low_stock_memory_counts_out_of_stock :
  let P := [product "p1" "c1" 0 5 None] in
  lowStockItems (MemoryStore.calculateStats fixedClock P []) = 1%nat
  /\ outOfStockItems (MemoryStore.calculateStats fixedClock P []) = 1%nat
  /\ count is_low P = 0%nat
  /\ lowStockItems (MemoryStore.calculateStats fixedClock P [])
     <> count is_low P.
Proof. simpl. repeat split. discriminate. Qed.

(** ** The stock-level bucket *)

Lemma attached_level_is_bucket (p : Product.t) :
  0 <= Product.current_stock p -> AttachedStore.getStockLevel p = bucket p.
Proof.
  intros Hs. unfold AttachedStore.getStockLevel, bucket. cbv zeta.
  destruct (Z.eqb_spec (Product.current_stock p) 0); [ reflexivity | ].
  destruct (Z.leb_spec (Product.current_stock p) (Product.min_stock p)).
  - replace (0 <? Product.current_stock p) with true by lia. reflexivity.
  - rewrite andb_false_r.
    replace (Product.min_stock p <? Product.current_stock p) with true by lia.
    rewrite andb_true_l.
    replace (2 * Product.min_stock p) with (Product.min_stock p * 2) by lia.
    reflexivity.
Qed.

(** C3 (as amended). For a product whose stock is not negative,
    [getStockLevel] of [AttachedStore] and of [MirrorStore] is 'out' when the
    stock is 0, 'low' when [0 < stock <= min_stock], 'medium' when
    [min_stock < stock <= 2 * min_stock] and 'high' otherwise; for every
    product, [getStockLevel] of [MemoryStore] is 'out' when the stock is 0,
    'low' when [stock <= min_stock], 'high' when [max_stock] is present, not
    0 and reached, and 'medium' otherwise. *)
Theorem stock_level_bucket (p : Product.t) :
  (0 <= Product.current_stock p ->
   AttachedStore.getStockLevel p = bucket p
   /\ MirrorStore.getStockLevel p = bucket p)
  /\ MemoryStore.getStockLevel p = bucket_by_max p.
Proof.
  split.
  - intros Hs. split; apply attached_level_is_bucket; exact Hs.
  - unfold MemoryStore.getStockLevel, bucket_by_max. cbv zeta.
    destruct (Product.current_stock p =? 0); [ reflexivity | ].
    destruct (Product.current_stock p <=? Product.min_stock p);
      [ reflexivity | ].
    destruct (Product.max_stock p) as [max |]; [ | reflexivity ].
    destruct (Z.eqb_spec max 0); simpl; [ reflexivity | ].
    destruct (Z.leb_spec max (Product.current_stock p)).
    + replace (Product.current_stock p <? max) with false by lia. reflexivity.
    + replace (Product.current_stock p <? max) with true by lia. reflexivity.
Qed.

Lemma stock_level_bucket_witness :
  let p := product "p1" "c1" 15 10 (Some 100) in
  0 <= Product.current_stock p
  /\ AttachedStore.getStockLevel p = medium
  /\ bucket p = medium.
Proof.
  intros p.
  assert (Hs : 0 <= Product.current_stock p) by (simpl; lia).
  split; [ exact Hs | ].
  destruct (stock_level_bucket p) as [Hlevel _].
  destruct (Hlevel Hs) as [Hattached _].
  split; [ reflexivity | ].
  rewrite <- Hattached. reflexivity.
Defined.

(** In [MemoryStore], a product holding 25 with a threshold of 10 and no
    [max_stock] is 'medium', where the claim's rule (25 is above 2 x 10)
    says 'high'. *)
Lemma stock_level_memory_differs :
  let p := product "p1" "c1" 25 10 None in
  MemoryStore.getStockLevel p = medium
  /\ bucket p = high
  /\ MemoryStore.getStockLevel p <> bucket p.
Proof. simpl. repeat split. discriminate. Qed.

(** ** Filtering *)

Section Filtering.

Variable toLowerCase : string -> string.

Lemma filter_twice {A : Type} (f g : A -> bool) (l : list A) :
  List.filter g (List.filter f l) = List.filter (fun x => f x && g x) l.
Proof.
  induction l as [| x l IH]; simpl; [ reflexivity | ].
  destruct (f x); simpl; [ destruct (g x) | ]; rewrite IH; reflexivity.
Qed.

Lemma filter_all {A : Type} (f : A -> bool) (l : list A) :
  (forall x, f x = true) -> List.filter f l = l.
Proof.
  intros Hf. induction l as [| x l IH]; simpl; [ reflexivity | ].
  rewrite Hf, IH. reflexivity.
Qed.

Lemma StockLevel_eqb_eq (a b : StockLevel) :
  StockLevel_eqb a b = true <-> a = b.
Proof. destruct a, b; simpl; split; congruence. Qed.

(** The successive filters amount to one filter by the conjunction. *)
Lemma getFilteredProducts_conjunction (state : StockState) :
  AttachedStore.getFilteredProducts toLowerCase state
  = List.filter (fun p =>
                   matches_search toLowerCase (filter state) p
                   && matches_category (filter state) p
                   && matches_supplier (filter state) p
                   && matches_level (filter state) p)
                (products state).
Proof.
  unfold AttachedStore.getFilteredProducts. cbv zeta.
  set (f := filter state).
  assert (Hsearch :
    match searchTerm f with
    | Some term =>
        if (term =? "")%string then products state
        else List.filter (fun product =>
               JS.includes (toLowerCase (Product.name product)) (toLowerCase term)
               || JS.includes (toLowerCase (Product.sku product)) (toLowerCase term)
               || match Product.description product with
                  | Some d => JS.includes (toLowerCase d) (toLowerCase term)
                  | None => false
                  end) (products state)
    | None => products state
    end = List.filter (matches_search toLowerCase f) (products state)).
  { unfold matches_search, is_set.
    destruct (searchTerm f) as [term |]; simpl.
    - destruct (term =? "")%string; simpl;
        [ symmetry; apply filter_all; reflexivity | reflexivity ].
    - symmetry; apply filter_all; reflexivity. }
  rewrite Hsearch. clear Hsearch.
  set (l1 := List.filter (matches_search toLowerCase f) (products state)).
  assert (Hcat :
    match category f with
    | Some c =>
        if (c =? "")%string then l1
        else List.filter (fun product => (Product.category_id product =? c)%string) l1
    | None => l1
    end = List.filter (matches_category f) l1).
  { unfold matches_category, is_set.
    destruct (category f) as [c |]; simpl.
    - destruct (c =? "")%string; simpl;
        [ symmetry; apply filter_all; reflexivity | reflexivity ].
    - symmetry; apply filter_all; reflexivity. }
  rewrite Hcat. clear Hcat.
  set (l2 := List.filter (matches_category f) l1).
  assert (Hsup :
    match supplier f with
    | Some s =>
        if (s =? "")%string then l2
        else List.filter (fun product => (Product.supplier_id product =? s)%string) l2
    | None => l2
    end = List.filter (matches_supplier f) l2).
  { unfold matches_supplier, is_set.
    destruct (supplier f) as [s |]; simpl.
    - destruct (s =? "")%string; simpl;
        [ symmetry; apply filter_all; reflexivity | reflexivity ].
    - symmetry; apply filter_all; reflexivity. }
  rewrite Hsup. clear Hsup.
  set (l3 := List.filter (matches_supplier f) l2).
  assert (Hlvl :
    match stockLevel f with
    | Some l =>
        List.filter (fun product =>
          StockLevel_eqb (AttachedStore.getStockLevel product) l) l3
    | None => l3
    end = List.filter (matches_level f) l3).
  { unfold matches_level.
    destruct (stockLevel f) as [l |];
      [ reflexivity | symmetry; apply filter_all; reflexivity ]. }
  rewrite Hlvl. clear Hlvl.
  subst l3 l2 l1. rewrite !filter_twice.
  apply filter_ext. intros p. rewrite !andb_assoc. reflexivity.
Qed.

Lemma mirror_getFilteredProducts (state : StockState) :
  MirrorStore.getFilteredProducts toLowerCase state
  = AttachedStore.getFilteredProducts toLowerCase state.
Proof. reflexivity. Qed.

End Filtering.

(** The two bucketing rules agree on which products are 'low'. *)
Lemma memory_low_is_attached_low (p : Product.t) :
  StockLevel_eqb (MemoryStore.getStockLevel p) low
  = StockLevel_eqb (AttachedStore.getStockLevel p) low.
Proof.
  unfold MemoryStore.getStockLevel, AttachedStore.getStockLevel.
  destruct (Product.current_stock p =? 0); [ reflexivity | ].
  destruct (Product.current_stock p <=? Product.min_stock p); [ reflexivity | ].
  destruct (Product.current_stock p <=? Product.min_stock p * 2);
    destruct (Product.max_stock p) as [m |]; simpl;
    try destruct (negb (m =? 0) && (m <=? Product.current_stock p));
    reflexivity.
Qed.

(** C6 (as amended). When the filter has a category [X] set (present and
    not empty, which is what the code tests) together with the stock level
    'low',
    [getFilteredProducts] returns only products of the list that are in
    category [X] and whose derived level is 'low'; its result is the list
    filtered by these two predicates and by the search and supplier
    predicates, so that with search term and supplier not set it is exactly
    the products that satisfy both: the intersection, in list order.  The
    in-memory version returns that same list when search term and supplier
    are not set. *)
Theorem filter_category_and_low (toLowerCase : string -> string)
    (state : StockState) (X : string) :
  category (filter state) = Some X ->
  X <> "" ->
  stockLevel (filter state) = Some low ->
  let both := fun p =>
    (Product.category_id p =? X)%string
    && StockLevel_eqb (AttachedStore.getStockLevel p) low in
  (forall p, In p (AttachedStore.getFilteredProducts toLowerCase state) ->
             In p (products state)
             /\ Product.category_id p = X
             /\ AttachedStore.getStockLevel p = low)
  /\ AttachedStore.getFilteredProducts toLowerCase state
     = List.filter (fun p =>
                      both p
                      && matches_search toLowerCase (filter state) p
                      && matches_supplier (filter state) p)
                   (products state)
  /\ (is_set (searchTerm (filter state)) = false ->
      is_set (supplier (filter state)) = false ->
      AttachedStore.getFilteredProducts toLowerCase state
      = List.filter both (products state))
  /\ MirrorStore.getFilteredProducts toLowerCase state
     = AttachedStore.getFilteredProducts toLowerCase state
  /\ (is_set (searchTerm (filter state)) = false ->
      is_set (supplier (filter state)) = false ->
      MemoryStore.getFilteredProducts toLowerCase state
      = List.filter both (products state)).
Proof.
  intros Hcat HX Hlvl both.
  assert (Hc : forall p, matches_category (filter state) p
                         = (Product.category_id p =? X)%string).
  { intros p. unfold matches_category, is_set. rewrite Hcat. simpl.
    destruct (String.eqb_spec X ""); [ contradiction | reflexivity ]. }
  assert (Hl : forall p, matches_level (filter state) p
                         = StockLevel_eqb (AttachedStore.getStockLevel p) low).
  { intros p. unfold matches_level. rewrite Hlvl. reflexivity. }
  rewrite getFilteredProducts_conjunction.
  split; [ | split; [ | split; [ | split ] ] ].
  - intros p Hin. apply filter_In in Hin. destruct Hin as [Hin Hp].
    rewrite Hc, Hl in Hp.
    apply andb_prop in Hp. destruct Hp as [Hp Hlow].
    apply andb_prop in Hp. destruct Hp as [Hp _].
    apply andb_prop in Hp. destruct Hp as [_ Hcid].
    split; [ exact Hin | ]. split.
    + apply String.eqb_eq. exact Hcid.
    + apply StockLevel_eqb_eq. exact Hlow.
  - apply filter_ext. intros p. subst both. cbv beta. rewrite Hc, Hl.
    destruct (matches_search toLowerCase (filter state) p),
      (Product.category_id p =? X)%string,
      (matches_supplier (filter state) p),
      (StockLevel_eqb (AttachedStore.getStockLevel p) low); reflexivity.
  - intros Hsearch Hsup.
    apply filter_ext. intros p. subst both. cbv beta. rewrite Hc, Hl.
    unfold matches_search, matches_supplier. rewrite Hsearch, Hsup. simpl.
    rewrite andb_true_r. reflexivity.
  - rewrite mirror_getFilteredProducts. apply getFilteredProducts_conjunction.
  - intros Hsearch Hsup. unfold MemoryStore.getFilteredProducts. cbv zeta.
    fold (is_set (searchTerm (filter state))).
    fold (is_set (category (filter state))).
    fold (is_set (supplier (filter state))).
    rewrite Hsearch, Hsup, Hcat, Hlvl. simpl.
    destruct (String.eqb_spec X ""); [ contradiction | ]. simpl.
    apply filter_ext. intros p. subst both. cbv beta.
    rewrite memory_low_is_attached_low, andb_true_r. reflexivity.
Qed.

(** With the category set to the empty string and the level 'low', the
    category test is skipped: the low products of every category come
    back, where none has the empty string as category.  With category c1,
    level 'low' and a search term that matches nothing, the list is empty
    although one product is in c1 and low. *)
Lemma filter_category_and_low_not_exact :
  let P := [ product "p1" "c1" 3 5 None; product "p2" "c1" 50 5 None;
             product "p3" "c2" 3 5 None; product "p4" "c2" 50 5 None ] in
  let both := fun X p =>
    (Product.category_id p =? X)%string
    && StockLevel_eqb (AttachedStore.getStockLevel p) low in
  let empty_category :=
    {| category := Some ""; supplier := None; stockLevel := Some low;
       searchTerm := None |} in
  let with_search :=
    {| category := Some "c1"; supplier := None; stockLevel := Some low;
       searchTerm := Some "zzz" |} in
  (map Product.id
     (AttachedStore.getFilteredProducts asciiLower (stateOf P empty_category))
   = ["p1"; "p3"]
   /\ List.filter (both "") P = []
   /\ AttachedStore.getFilteredProducts asciiLower (stateOf P empty_category)
      <> List.filter (both "") P)
  /\ (AttachedStore.getFilteredProducts asciiLower (stateOf P with_search) = []
      /\ map Product.id (List.filter (both "c1") P) = ["p1"]
      /\ AttachedStore.getFilteredProducts asciiLower (stateOf P with_search)
         <> List.filter (both "c1") P).
Proof. simpl. repeat split; discriminate. Qed.

(** Of four products - in category c1 and low, in c1 and high, in c2 and
    low, in c2 and high - only the first is returned. *)
Lemma filter_category_and_low_witness :
  let P := [ product "p1" "c1" 3 5 None; product "p2" "c1" 50 5 None;
             product "p3" "c2" 3 5 None; product "p4" "c2" 50 5 None ] in
  let f := {| category := Some "c1"; supplier := None;
              stockLevel := Some low; searchTerm := None |} in
  (category f = Some "c1" /\ "c1" <> "" /\ stockLevel f = Some low)
  /\ AttachedStore.getFilteredProducts (fun s => s) (stateOf P f)
     = [ product "p1" "c1" 3 5 None ].
Proof.
  intros P f.
  assert (HX : "c1" <> "") by discriminate.
  split; [ repeat split; exact HX | ].
  destruct (filter_category_and_low (fun s => s) (stateOf P f) "c1"
              eq_refl HX eq_refl) as (_ & _ & Hexact & _).
  rewrite (Hexact eq_refl eq_refl). reflexivity.
Defined.

(** ** CSV export and import *)

(** A record of comma-free text survives the round trip. *)
Example csv_round_trip_plain :
  let row := [("name", JS.text "Widget"); ("sku", JS.text "SKU001")] in
  option_map (fun csv => map as_values (parseCSVFile csv))
             (exportDataToCSV [row]) = Some [row].
Proof. reflexivity. Qed.

(** C5. There is a record with a comma in a field - name "Widget, Large" -
    that the export to CSV followed by the import does not give back: the
    import cuts the name at the comma and puts the rest in the next column. *)
Theorem csv_round_trip_loses_comma_field :
  exists (row : object JS.value) (csv : string),
    (exists k s, In (k, JS.text s) row /\ JS.includes s "," = true)
    /\ exportDataToCSV [row] = Some csv
    /\ parseCSVFile csv = [[("name", "Widget"); ("sku", " Large")]]
    /\ map as_values (parseCSVFile csv) <> [row].
Proof.
  exists [("name", JS.text "Widget, Large"); ("sku", JS.text "SKU001")].
  eexists. split; [ | split; [ reflexivity | split ] ].
  - exists "name", "Widget, Large". split; [ left; reflexivity | reflexivity ].
  - reflexivity.
  - discriminate.
Qed.

(** C9. A cell whose value is falsy - 0, false, null, undefined, the empty
    string, or no property at all - is written as two double quotes, so
    records that differ only in such values export to the same text, and a
    zero or a false comes back from the import as the empty string, with no
    comma, quote or newline involved. *)
Theorem csv_export_blanks_falsy (row : object JS.value) (header : string) :
  JS.truthy (field row header) = false ->
  cell row header = quote +:+ quote
  /\ (forall v, In v [JS.number 0; JS.boolean false; JS.null; JS.undefined;
                      JS.text ""] ->
                JS.truthy v = false
                /\ exportDataToCSV [[("name", JS.text "Widget"); ("qty", v)]]
                   = exportDataToCSV [[("name", JS.text "Widget");
                                       ("qty", JS.text "")]])
  /\ option_map parseCSVFile
       (exportDataToCSV [[("name", JS.text "Widget"); ("qty", JS.number 0);
                          ("active", JS.boolean false)]])
     = Some [[("name", "Widget"); ("qty", ""); ("active", "")]].
Proof.
  intros Hfalsy. split; [ | split ].
  - unfold cell, JS.or_else. rewrite Hfalsy. reflexivity.
  - intros v Hv. simpl in Hv.
    repeat (destruct Hv as [<- | Hv]; [ split; reflexivity | ]).
    contradiction.
  - reflexivity.
Qed.

Lemma csv_export_blanks_falsy_witness :
  let row := [("name", JS.text "Widget"); ("qty", JS.number 0)] in
  JS.truthy (field row "qty") = false
  /\ cell row "qty" = quote +:+ quote
  /\ cell row "name" <> quote +:+ quote.
Proof.
  intros row.
  assert (Hfalsy : JS.truthy (field row "qty") = false) by reflexivity.
  split; [ exact Hfalsy | ].
  split; [ exact (proj1 (csv_export_blanks_falsy row "qty" Hfalsy)) | ].
  discriminate.
Defined.

(** *** What the import returns *)

Lemma all_fields_put (K V : string -> Prop) (o : object string) (k v : string) :
  all_fields K V o -> K k -> V v -> all_fields K V (put o k v).
Proof.
  unfold all_fields. intros Ho Hk Hv.
  induction Ho as [| [k' v'] o [Hk' Hv'] Ho IH]; simpl.
  - constructor; [ split; assumption | constructor ].
  - destruct (k' =? k)%string; constructor; try assumption; split; assumption.
Qed.

Lemma all_fields_fold (K V : string -> Prop) (cells : list string)
    (indexed : list (nat * string)) (o : object string) :
  all_fields K V o ->
  (forall i h, In (i, h) indexed -> K h) ->
  (forall i, V (nth i cells EmptyString)) ->
  all_fields K V
    (fold_left (fun obj '(index, header) =>
                  put obj header (nth index cells EmptyString)) indexed o).
Proof.
  intros Ho Hk Hv. revert o Ho.
  induction indexed as [| [i h] indexed IH]; intros o Ho; simpl;
    [ exact Ho | ].
  apply IH.
  - intros j h' Hin. apply (Hk j). right. exact Hin.
  - apply all_fields_put;
      [ exact Ho | apply (Hk i); left; reflexivity | apply Hv ].
Qed.

Lemma strip_quotes_free (s : string) : quote_free (strip_quotes s).
Proof.
  unfold quote_free. induction s as [| c s IH]; simpl; [ tauto | ].
  destruct (Nat.eqb_spec (nat_of_ascii c) 34) as [Hc | Hc]; [ exact IH | ].
  simpl. intros [Heq | Hin]; [ | exact (IH Hin) ].
  apply Hc. rewrite Heq. reflexivity.
Qed.

Lemma nth_all {A : Type} (V : A -> Prop) (l : list A) (d : A) :
  V d -> (forall x, In x l -> V x) -> forall i, V (nth i l d).
Proof.
  intros Hd Hl i. destruct (nth_in_or_default i l d) as [Hin | ->];
    [ apply Hl; exact Hin | exact Hd ].
Qed.

Lemma split_nonempty (sep : ascii) (s : string) : split sep s <> [].
Proof.
  destruct s as [| c s]; simpl; [ discriminate | ].
  destruct (Ascii.eqb c sep); [ discriminate | ].
  destruct (split sep s); discriminate.
Qed.

Lemma split_trailing (sep : ascii) (s : string) :
  split sep (s +:+ String sep EmptyString)
  = (split sep s ++ [EmptyString])%list.
Proof.
  induction s as [| c s IH]; simpl.
  - rewrite Ascii.eqb_refl. reflexivity.
  - destruct (Ascii.eqb c sep); [ rewrite IH; reflexivity | ].
    rewrite IH. pose proof (split_nonempty sep s) as Hne.
    destruct (split sep s); [ contradiction | reflexivity ].
Qed.

Lemma parseCSVFile_unfold (csv : string) :
  parseCSVFile csv
  = let lines := split newline csv in
    let headers := map strip_quotes (split comma (hd EmptyString lines)) in
    List.filter has_content (map (record_of headers) (tl lines)).
Proof. reflexivity. Qed.

Lemma record_of_fields (headers : list string) (line : string) :
  (forall h, In h headers -> quote_free h) ->
  all_fields quote_free quote_free (record_of headers line).
Proof.
  intros Hh. unfold record_of. cbv zeta.
  apply all_fields_fold.
  - constructor.
  - intros i h Hin. apply Hh. apply (in_combine_r _ _ _ _ Hin).
  - apply nth_all.
    + unfold quote_free; simpl; tauto.
    + intros x Hx. apply in_map_iff in Hx. destruct Hx as (y & <- & _).
      apply strip_quotes_free.
Qed.

Lemma blank_line_has_no_content (headers : list string) :
  has_content (record_of headers EmptyString) = false.
Proof.
  assert (Hall : all_fields (fun _ => True) (fun v => v = EmptyString)
                   (record_of headers EmptyString)).
  { unfold record_of. cbv zeta. apply all_fields_fold.
    - constructor.
    - intros; exact I.
    - intros [| [| i]]; reflexivity. }
  unfold has_content, values. unfold all_fields in Hall.
  induction Hall as [| [k v] o [_ Hv] Ho IH]; simpl; [ reflexivity | ].
  simpl in Hv. rewrite Hv, IH. reflexivity.
Qed.

Lemma has_content_field (obj : object string) :
  has_content obj = true -> exists k v, In (k, v) obj /\ v <> EmptyString.
Proof.
  unfold has_content, values. intros H.
  apply existsb_exists in H. destruct H as (v & Hin & Hv).
  apply in_map_iff in Hin. destruct Hin as ([k v'] & Hsnd & Hin).
  simpl in Hsnd. subst v'.
  exists k, v. split; [ exact Hin | ].
  intros ->. discriminate Hv.
Qed.

(** C10. Every record [parseCSVFile] returns has a field whose value is not
    the empty string, and neither its keys nor its values contain a double
    quote; a row whose cells are all empty is left out, so a blank line at
    the end of the file changes nothing. *)
Theorem parse_csv_keeps_rows_with_content (csv : string) :
  (forall obj, In obj (parseCSVFile csv) ->
     (exists k v, In (k, v) obj /\ v <> EmptyString)
     /\ all_fields quote_free quote_free obj)
  /\ (forall obj, (forall k v, In (k, v) obj -> v = EmptyString) ->
                   ~ In obj (parseCSVFile csv))
  /\ parseCSVFile (csv +:+ String newline EmptyString) = parseCSVFile csv.
Proof.
  split; [ | split ].
  - intros obj Hin. rewrite parseCSVFile_unfold in Hin. cbv zeta in Hin.
    apply filter_In in Hin. destruct Hin as [Hin Hkeep].
    split; [ apply has_content_field; exact Hkeep | ].
    apply in_map_iff in Hin. destruct Hin as (line & <- & _).
    apply record_of_fields.
    intros h Hh. apply in_map_iff in Hh. destruct Hh as (y & <- & _).
    apply strip_quotes_free.
  - intros obj Hblank Hin. rewrite parseCSVFile_unfold in Hin. cbv zeta in Hin.
    apply filter_In in Hin. destruct Hin as [_ Hkeep].
    apply has_content_field in Hkeep. destruct Hkeep as (k & v & Hkv & Hv).
    apply Hv. apply (Hblank k). exact Hkv.
  - rewrite !parseCSVFile_unfold. cbv zeta.
    rewrite split_trailing.
    pose proof (split_nonempty newline csv) as Hne.
    destruct (split newline csv) as [| first rest]; [ contradiction | ].
    simpl. rewrite List.map_app, List.filter_app. simpl.
    rewrite blank_line_has_no_content. apply app_nil_r.
Qed.

(** A file with a quoted header row, one data row and two blank lines. *)
Example parse_csv_sample :
  parseCSVFile
    (join newline [ quote +:+ "name" +:+ quote +:+ ",qty";
                    quote +:+ "Widget" +:+ quote +:+ ",3"; ","; "" ])
  = [[("name", "Widget"); ("qty", "3")]].
Proof. reflexivity. Qed.

(** ** Deleting a category *)

Lemma countProducts_from (ids : list string) (counts : gmap string nat)
    (id : string) :
  default 0%nat
    (fold_left (fun counts category_id =>
                  <[category_id := (default 0 (counts !! category_id) + 1)%nat]> counts)
               ids counts !! id)
  = (default 0 (counts !! id)
     + length (List.filter (fun x => (x =? id)%string) ids))%nat.
Proof.
  revert counts. induction ids as [| x ids IH]; intros counts; simpl.
  - lia.
  - rewrite IH. destruct (String.eqb_spec x id) as [-> | Hne].
    + rewrite lookup_insert_eq. simpl. lia.
    + rewrite lookup_insert_ne by exact Hne. reflexivity.
Qed.

(** The count the page keeps for a category is the number of fetched
    product rows that reference it. *)
Lemma countProducts_counts (ids : list string) (id : string) :
  default 0%nat (CategoriesPage.countProducts ids !! id)
  = length (List.filter (fun x => (x =? id)%string) ids).
Proof.
  unfold CategoriesPage.countProducts. rewrite countProducts_from.
  rewrite lookup_empty. reflexivity.
Qed.

Lemma filter_map_length {A B : Type} (f : A -> B) (g : B -> bool) (l : list A) :
  length (List.filter g (map f l)) = length (List.filter (fun x => g (f x)) l).
Proof.
  induction l as [| x l IH]; simpl; [ reflexivity | ].
  destruct (g (f x)); simpl; rewrite IH; reflexivity.
Qed.

(** After a load that succeeded, the page's count for each category is the
    number of products that reference it in the store. *)
Lemma fetchCategories_counts (p : CategoriesPage.page) (r : Supabase.remote)
    (id : string) :
  Supabase.faulty r Supabase.select_categories = false ->
  Supabase.faulty r Supabase.select_product_categories = false ->
  default 0%nat
    (CategoriesPage.productCounts (fst (CategoriesPage.fetchCategories p r)) !! id)
  = Supabase.referencing id r.
Proof.
  intros Hc Hp.
  unfold CategoriesPage.fetchCategories, Supabase.select_all_categories,
    Supabase.select_category_ids. simpl. rewrite Hc. simpl. rewrite Hp. simpl.
  rewrite countProducts_counts. unfold Supabase.referencing.
  apply filter_map_length.
Qed.

(** C4 (as amended). [handleDeleteCategory] of the categories page, [N]
    being the product count the page holds for the category: when [N > 0]
    it sends nothing to the store, leaves the category list as it is and
    reports [N]; when [N = 0] its first request is the delete, after a
    failed delete the list is as it was, and after a successful delete and
    reload no category of the list has the deleted id.  [deleteCategory] of
    [MirrorStore] checks nothing: it always sends the delete, and when the
    store accepts it the category is filtered out of the local list. *)
Theorem delete_category_guard (categoryId : string) (p : CategoriesPage.page)
    (r : Supabase.remote) :
  let N := default 0%nat (CategoriesPage.productCounts p !! categoryId) in
  let p' := fst (CategoriesPage.handleDeleteCategory categoryId p r) in
  let r' := snd (CategoriesPage.handleDeleteCategory categoryId p r) in
  let rq := Supabase.delete_category categoryId in
  ((0 < N)%nat ->
     Supabase.calls r' = Supabase.calls r
     /\ Supabase.category_rows r' = Supabase.category_rows r
     /\ CategoriesPage.categories p' = CategoriesPage.categories p
     /\ CategoriesPage.toasts p'
        = CategoriesPage.cannot_delete N :: CategoriesPage.toasts p)
  /\ (N = 0%nat ->
        (exists later,
            Supabase.calls r' = (later ++ rq :: Supabase.calls r)%list)
        /\ (Supabase.faulty r rq = true ->
              CategoriesPage.categories p' = CategoriesPage.categories p
              /\ Supabase.category_rows r' = Supabase.category_rows r
              /\ CategoriesPage.toasts p'
                 = CategoriesPage.delete_failed :: CategoriesPage.toasts p)
        /\ (Supabase.faulty r rq = false ->
              (forall c, In c (Supabase.category_rows r') ->
                         Category.id c <> categoryId)
              /\ (Supabase.faulty r Supabase.select_categories = false ->
                  Supabase.faulty r Supabase.select_product_categories = false ->
                  (forall l c, In c (Supabase.ordered r l) -> In c l) ->
                  forall c, In c (CategoriesPage.categories p') ->
                            Category.id c <> categoryId)))
  /\ (forall clock state,
        let s' := fst (MirrorStore.deleteCategory clock categoryId state r) in
        let r2 := snd (MirrorStore.deleteCategory clock categoryId state r) in
        Supabase.calls r2 = rq :: Supabase.calls r
        /\ (Supabase.faulty r rq = false ->
              categories s'
              = List.filter (fun c => negb (Category.id c =? categoryId)%string)
                            (categories state))).
Proof.
  intros N p' r' rq. subst p' r'.
  unfold CategoriesPage.handleDeleteCategory. fold N.
  split; [ | split ].
  - intros HN. apply Nat.ltb_lt in HN. rewrite HN. simpl. repeat split.
  - intros HN. rewrite HN. simpl.
    unfold Supabase.delete_from_categories. fold rq.
    destruct (Supabase.faulty r rq) eqn:Hrq; simpl.
    + split; [ exists []; reflexivity | ].
      split; [ intros _; repeat split | intros Habs; discriminate Habs ].
    + assert (Hgone : forall c,
                In c (List.filter (fun c => negb (Category.id c =? categoryId)%string)
                                  (Supabase.category_rows r)) ->
                Category.id c <> categoryId).
      { intros c Hin. apply filter_In in Hin. destruct Hin as [_ Hc].
        intros Heq. rewrite Heq, String.eqb_refl in Hc. discriminate Hc. }
      unfold CategoriesPage.fetchCategories, Supabase.select_all_categories,
        Supabase.select_category_ids. simpl.
      split; [ | split; [ intros Habs; discriminate Habs | intros _; split ] ].
      * destruct (Supabase.faulty r Supabase.select_categories); simpl;
          [ exists [Supabase.select_categories]; reflexivity | ].
        destruct (Supabase.faulty r Supabase.select_product_categories); simpl;
          exists [Supabase.select_product_categories; Supabase.select_categories];
          reflexivity.
      * destruct (Supabase.faulty r Supabase.select_categories); simpl;
          [ exact Hgone | ].
        destruct (Supabase.faulty r Supabase.select_product_categories); simpl;
          exact Hgone.
      * intros Hc Hp Hord. rewrite Hc; simpl. rewrite Hp; simpl.
        intros c Hin. apply Hgone. apply Hord. exact Hin.
  - intros clock state. unfold MirrorStore.deleteCategory,
      Supabase.delete_from_categories. fold rq.
    destruct (Supabase.faulty r rq); simpl;
      (split; [ reflexivity | ]); intros Hrq;
      [ discriminate Hrq | reflexivity ].
Qed.

Lemma delete_category_guard_witness :
  let blocked :=
    CategoriesPage.handleDeleteCategory "c1" samplePage sampleRemote in
  let done :=
    CategoriesPage.handleDeleteCategory "c2" samplePage sampleRemote in
  (default 0%nat (CategoriesPage.productCounts samplePage !! "c1") = 1%nat
   /\ Supabase.calls (snd blocked) = []
   /\ CategoriesPage.toasts (fst blocked) = [CategoriesPage.cannot_delete 1])
  /\ (default 0%nat (CategoriesPage.productCounts samplePage !! "c2") = 0%nat
      /\ map Category.id (CategoriesPage.categories (fst done)) = ["c1"]
      /\ forall c, In c (CategoriesPage.categories (fst done)) ->
                   Category.id c <> "c2").
Proof.
  intros blocked done.
  destruct (delete_category_guard "c1" samplePage sampleRemote)
    as (Hblocked & _ & _).
  destruct (delete_category_guard "c2" samplePage sampleRemote)
    as (_ & Hdone & _).
  assert (H1 : default 0%nat (CategoriesPage.productCounts samplePage !! "c1")
               = 1%nat) by (vm_compute; reflexivity).
  assert (H2 : default 0%nat (CategoriesPage.productCounts samplePage !! "c2")
               = 0%nat) by (vm_compute; reflexivity).
  split.
  - split; [ exact H1 | ].
    rewrite H1 in Hblocked. destruct (Hblocked (Nat.lt_0_succ 0))
      as (Hcalls & _ & _ & Htoasts).
    split; [ exact Hcalls | exact Htoasts ].
  - split; [ exact H2 | ].
    split; [ vm_compute; reflexivity | ].
    destruct (Hdone H2) as (_ & _ & Hgone).
    destruct (Hgone eq_refl) as [_ Hlist].
    apply (Hlist eq_refl eq_refl).
    intros l c Hin. simpl in Hin. apply in_rev. exact Hin.
Defined.

(** [deleteCategory] of [MirrorStore] on a category that one product
    references, in the store and in the local state alike: the delete is
    sent and the category leaves the list. *)
Lemma delete_category_store_not_refused :
  let state :=
    with_categories (stateOf [product "p1" "c1" 10 5 None] emptyFilter)
                    [sampleCategory "c1" "Tools"; sampleCategory "c2" "Paper"] in
  let after := MirrorStore.deleteCategory fixedClock "c1" state sampleRemote in
  Supabase.referencing "c1" sampleRemote = 1%nat
  /\ Supabase.calls (snd after) = [Supabase.delete_category "c1"]
  /\ map Category.id (categories (fst after)) = ["c2"]
  /\ categories (fst after) <> categories state.
Proof. simpl. repeat split. discriminate. Qed.

(** * Further properties of the modelled code *)

(** ** The reducers: products *)

Lemma case_of_sound (type : string) (tag : ActionTag) :
  case_of type = Some tag -> type = tag_name tag.
Proof.
  unfold case_of.
  repeat match goal with
         | |- context [String.eqb type ?name] =>
             destruct (String.eqb_spec type name) as [-> | _];
             [ intros [= <-]; reflexivity | ]
         end.
  discriminate.
Qed.

Lemma with_products_same (state : StockState) :
  with_products state (products state) = state.
Proof. destruct state; reflexivity. Qed.

Lemma filter_none_removed {A : Type} (f : A -> bool) (l : list A) :
  (forall x, In x l -> f x = true) -> List.filter f l = l.
Proof.
  induction l as [| x l IH]; simpl; intros Hf; [ reflexivity | ].
  rewrite (Hf x (or_introl eq_refl)). f_equal. apply IH.
  intros y Hy. apply Hf. right. exact Hy.
Qed.

Lemma map_unchanged {A : Type} (f : A -> A) (l : list A) :
  (forall x, In x l -> f x = x) -> map f l = l.
Proof.
  induction l as [| x l IH]; simpl; intros Hf; [ reflexivity | ].
  rewrite (Hf x (or_introl eq_refl)). f_equal. apply IH.
  intros y Hy. apply Hf. right. exact Hy.
Qed.

Lemma reducers_products_actions (reduce : Clock -> StockState -> StockAction -> StockState) :
  In reduce reducers ->
  forall clock state,
    (forall p, reduce clock state (add_product p)
               = with_products state (products state ++ [p]))
    /\ (forall p, reduce clock state (update_product p)
                  = with_products state
                      (map (fun x => if (Product.id x =? Product.id p)%string
                                     then p else x) (products state)))
    /\ (forall id, reduce clock state (delete_product id)
                   = with_products state
                       (List.filter (fun x => negb (Product.id x =? id)%string)
                                    (products state))).
Proof.
  unfold reducers. simpl.
  intros [<- | [<- | [<- | []]]]; intros clock state; repeat split.
Qed.

(** X1. [DELETE_PRODUCT], in each version of the reducer: the products left
    are exactly those whose id differs from the payload, nothing but the
    product list changes, and an id that no product has leaves the state as
    it is. *)
Theorem delete_product_removes_exactly
    (reduce : Clock -> StockState -> StockAction -> StockState)
    (clock : Clock) (state : StockState) (id : string) :
  In reduce reducers ->
  let state' := reduce clock state (delete_product id) in
  (forall p, In p (products state') <->
             In p (products state) /\ Product.id p <> id)
  /\ state' = with_products state (products state')
  /\ ((forall p, In p (products state) -> Product.id p <> id) ->
      state' = state).
Proof.
  intros Hin state'. subst state'.
  destruct (reducers_products_actions reduce Hin clock state) as (_ & _ & Hdel).
  rewrite Hdel. simpl. split; [ | split ].
  - intros p. rewrite filter_In.
    destruct (String.eqb_spec (Product.id p) id); simpl; intuition congruence.
  - reflexivity.
  - intros Hfresh. rewrite filter_none_removed.
    + apply with_products_same.
    + intros p Hp. destruct (String.eqb_spec (Product.id p) id) as [Heq | _];
        [ exfalso; exact (Hfresh p Hp Heq) | reflexivity ].
Qed.

Lemma delete_product_removes_exactly_witness :
  let state := stateOf [ product "p1" "c1" 10 5 None;
                         product "p2" "c1" 3 5 None ] emptyFilter in
  In MirrorStore.stockReducer reducers
  /\ map Product.id
       (products (MirrorStore.stockReducer fixedClock state (delete_product "p1")))
     = ["p2"]
  /\ forall p,
       In p (products (MirrorStore.stockReducer fixedClock state
                         (delete_product "p1"))) ->
       Product.id p <> "p1".
Proof.
  intros state.
  assert (Hin : In MirrorStore.stockReducer reducers)
    by (unfold reducers; simpl; tauto).
  split; [ exact Hin | ]. split; [ reflexivity | ].
  intros p Hp.
  destruct (delete_product_removes_exactly MirrorStore.stockReducer
              fixedClock state "p1" Hin) as (Hexact & _).
  apply Hexact in Hp. exact (proj2 Hp).
Defined.

(** X2. [UPDATE_PRODUCT], in each version of the reducer: the list keeps
    its length, its ids and their order; each product with the payload's id
    becomes the payload and the others stay; with no product of that id the
    state is left as it is (the payload is not added). *)
Theorem update_product_keeps_ids
    (reduce : Clock -> StockState -> StockAction -> StockState)
    (clock : Clock) (state : StockState) (payload : Product.t) :
  In reduce reducers ->
  let state' := reduce clock state (update_product payload) in
  map Product.id (products state') = map Product.id (products state)
  /\ (forall i p, nth_error (products state) i = Some p ->
        nth_error (products state') i
        = Some (if (Product.id p =? Product.id payload)%string
                then payload else p))
  /\ ((forall p, In p (products state) -> Product.id p <> Product.id payload) ->
      state' = state).
Proof.
  intros Hin state'. subst state'.
  destruct (reducers_products_actions reduce Hin clock state) as (_ & Hupd & _).
  rewrite Hupd. simpl. split; [ | split ].
  - rewrite map_map. apply map_ext. intros x.
    destruct (String.eqb_spec (Product.id x) (Product.id payload));
      [ symmetry; assumption | reflexivity ].
  - intros i p Hp. rewrite nth_error_map, Hp. reflexivity.
  - intros Hfresh. rewrite map_unchanged.
    + apply with_products_same.
    + intros p Hp.
      destruct (String.eqb_spec (Product.id p) (Product.id payload)) as [Heq | _];
        [ exfalso; exact (Hfresh p Hp Heq) | reflexivity ].
Qed.

Lemma update_product_keeps_ids_witness :
  let state := stateOf [ product "p1" "c1" 10 5 None;
                         product "p2" "c1" 3 5 None ] emptyFilter in
  In AttachedStore.stockReducer reducers
  /\ map Product.current_stock
       (products (AttachedStore.stockReducer fixedClock state
                    (update_product (product "p2" "c1" 40 5 None))))
     = [10; 40]
  /\ map Product.id
       (products (AttachedStore.stockReducer fixedClock state
                    (update_product (product "p2" "c1" 40 5 None))))
     = map Product.id (products state).
Proof.
  intros state.
  assert (Hin : In AttachedStore.stockReducer reducers)
    by (unfold reducers; simpl; tauto).
  split; [ exact Hin | ]. split; [ reflexivity | ].
  exact (proj1 (update_product_keeps_ids AttachedStore.stockReducer fixedClock
                  state (product "p2" "c1" 40 5 None) Hin)).
Defined.

(** X3. Adding a product whose id is not yet in the list and then deleting
    that id gives back the state before the two dispatches, in each version
    of the reducer. *)
Theorem add_then_delete_product
    (reduce : Clock -> StockState -> StockAction -> StockState)
    (clock : Clock) (state : StockState) (p : Product.t) :
  In reduce reducers ->
  (forall x, In x (products state) -> Product.id x <> Product.id p) ->
  reduce clock (reduce clock state (add_product p))
         (delete_product (Product.id p))
  = state.
Proof.
  intros Hin Hfresh.
  destruct (reducers_products_actions reduce Hin clock state) as (Hadd & _ & _).
  rewrite Hadd.
  destruct (reducers_products_actions reduce Hin clock
              (with_products state (products state ++ [p])))
    as (_ & _ & Hdel).
  rewrite Hdel. unfold with_products at 1 2. simpl.
  rewrite List.filter_app. simpl. rewrite String.eqb_refl. simpl.
  rewrite app_nil_r, filter_none_removed.
  - destruct state; reflexivity.
  - intros x Hx.
    destruct (String.eqb_spec (Product.id x) (Product.id p)) as [Heq | _];
      [ exfalso; exact (Hfresh x Hx Heq) | reflexivity ].
Qed.

Lemma add_then_delete_product_witness :
  let state := stateOf [product "p1" "c1" 10 5 None] emptyFilter in
  let p := product "p2" "c1" 3 5 None in
  In MemoryStore.stockReducer reducers
  /\ (forall x, In x (products state) -> Product.id x <> Product.id p)
  /\ MemoryStore.stockReducer fixedClock
       (MemoryStore.stockReducer fixedClock state (add_product p))
       (delete_product "p2")
     = state.
Proof.
  intros state p.
  assert (Hin : In MemoryStore.stockReducer reducers)
    by (unfold reducers; simpl; tauto).
  assert (Hfresh : forall x, In x (products state) ->
                             Product.id x <> Product.id p).
  { intros x [<- | []]. discriminate. }
  split; [ exact Hin | ]. split; [ exact Hfresh | ].
  exact (add_then_delete_product MemoryStore.stockReducer fixedClock state p
           Hin Hfresh).
Defined.

(** ** The reducers: what an action leaves alone *)

(** X4. In each version of the reducer the statistics change only on
    [CALCULATE_STATS], the filter only on [SET_FILTER] and the loading flag
    only on [SET_LOADING]: after any other action the statistics are those
    computed before it, whatever happened to products and movements. *)
Theorem reducer_frame
    (reduce : Clock -> StockState -> StockAction -> StockState)
    (clock : Clock) (state : StockState) (action : StockAction) :
  In reduce reducers ->
  (type action <> "CALCULATE_STATS" ->
   stats (reduce clock state action) = stats state)
  /\ (type action <> "SET_FILTER" ->
      filter (reduce clock state action) = filter state)
  /\ (type action <> "SET_LOADING" ->
      loading (reduce clock state action) = loading state).
Proof.
  unfold reducers. simpl.
  destruct action as [ty pl].
  intros [<- | [<- | [<- | []]]];
    unfold AttachedStore.stockReducer, MemoryStore.stockReducer,
      MirrorStore.stockReducer; simpl;
    revert pl; destruct (case_of ty) as [tag |] eqn:Htag; intros pl;
    try (repeat split; reflexivity);
    apply case_of_sound in Htag; subst ty;
    destruct tag; simpl; repeat split; intros Hne;
    try reflexivity; contradiction.
Qed.

Lemma reducer_frame_witness :
  let state := stateOf [product "p1" "c1" 0 5 None] emptyFilter in
  let action := add_product (product "p2" "c1" 3 5 None) in
  In AttachedStore.stockReducer reducers
  /\ type action <> "CALCULATE_STATS"
  /\ totalProducts (stats (AttachedStore.stockReducer fixedClock state action))
     = 0%nat
  /\ length (products (AttachedStore.stockReducer fixedClock state action))
     = 2%nat.
Proof.
  intros state action.
  assert (Hin : In AttachedStore.stockReducer reducers)
    by (unfold reducers; simpl; tauto).
  assert (Hne : type action <> "CALCULATE_STATS") by discriminate.
  split; [ exact Hin | ]. split; [ exact Hne | ].
  destruct (reducer_frame AttachedStore.stockReducer fixedClock state action Hin)
    as (Hstats & _).
  rewrite (Hstats Hne). split; reflexivity.
Defined.

(** ** The reducer of [MirrorStore]: movements *)

Lemma mirror_add_movement (clock : Clock) (state : StockState)
    (m : StockMovement.t) :
  MirrorStore.stockReducer clock state (add_movement m)
  = with_movements
      (with_products state
         (map (fun p =>
                 if (Product.id p =? StockMovement.product_id m)%string
                 then restock p (stock_after m p) (nowISO clock) else p)
              (products state)))
      (m :: movements state).
Proof. reflexivity. Qed.

Lemma stock_after_not_negative (m : StockMovement.t) (p : Product.t) :
  0 <= Product.current_stock p -> 0 <= StockMovement.quantity m ->
  0 <= stock_after m p.
Proof.
  intros Hs Hq. unfold stock_after.
  destruct (StockMovement.type m =? "in")%string; lia.
Qed.

Lemma mirror_movement_keeps_stock_not_negative (clock : Clock)
    (state : StockState) (m : StockMovement.t) :
  stock_not_negative state -> 0 <= StockMovement.quantity m ->
  stock_not_negative (MirrorStore.stockReducer clock state (add_movement m)).
Proof.
  unfold stock_not_negative. intros Hs Hq.
  rewrite mirror_add_movement_products.
  apply List.Forall_forall. intros p' Hp'.
  apply in_map_iff in Hp'. destruct Hp' as (p & <- & Hp).
  pose proof (proj1 (List.Forall_forall _ _) Hs p Hp) as Hp0.
  destruct (Product.id p =? StockMovement.product_id m)%string; simpl;
    [ apply stock_after_not_negative; assumption | exact Hp0 ].
Qed.

(** X5. In [MirrorStore], movements never drive a stock below zero: from a
    state where no stock is negative, after any sequence of movements with
    quantities that are not negative no stock is negative, and the history
    holds the movements, latest first, in front of the former history. *)
Theorem movements_keep_stock_not_negative (clock : Clock)
    (state : StockState) (ms : list StockMovement.t) :
  stock_not_negative state ->
  (forall m, In m ms -> 0 <= StockMovement.quantity m) ->
  stock_not_negative (after_movements clock state ms)
  /\ movements (after_movements clock state ms)
     = (rev ms ++ movements state)%list
  /\ map Product.id (products (after_movements clock state ms))
     = map Product.id (products state).
Proof.
  unfold after_movements. revert state.
  induction ms as [| m ms IH]; intros state Hs Hq; simpl.
  - repeat split. exact Hs.
  - destruct (IH (MirrorStore.stockReducer clock state (add_movement m)))
      as (Hneg & Hhist & Hids).
    + apply mirror_movement_keeps_stock_not_negative;
        [ exact Hs | apply Hq; left; reflexivity ].
    + intros m' Hm'. apply Hq. right. exact Hm'.
    + split; [ exact Hneg | ]. split.
      * rewrite Hhist. simpl. rewrite <- app_assoc. reflexivity.
      * rewrite Hids, mirror_add_movement_products, map_map.
        apply map_ext. intros p.
        destruct (Product.id p =? StockMovement.product_id m)%string;
          reflexivity.
Qed.

Lemma movements_keep_stock_not_negative_witness :
  let state := stateOf [product "p1" "c1" 2 5 None] emptyFilter in
  let ms := [movement "p1" "out" 5; movement "p1" "in" 4] in
  stock_not_negative state
  /\ (forall m, In m ms -> 0 <= StockMovement.quantity m)
  /\ stock_not_negative (after_movements fixedClock state ms)
  /\ map Product.current_stock (products (after_movements fixedClock state ms))
     = [4].
Proof.
  intros state ms.
  assert (Hs : stock_not_negative state).
  { unfold stock_not_negative. simpl. constructor; [ simpl; lia | constructor ]. }
  assert (Hq : forall m, In m ms -> 0 <= StockMovement.quantity m).
  { intros m [<- | [<- | []]]; simpl; lia. }
  split; [ exact Hs | ]. split; [ exact Hq | ].
  split; [ | reflexivity ].
  exact (proj1 (movements_keep_stock_not_negative fixedClock state ms Hs Hq)).
Defined.

(** X6. In [MirrorStore], a movement whose [product_id] matches no product
    is still put in the history, and the product list stays as it is. *)
Theorem movement_for_unknown_product (clock : Clock) (state : StockState)
    (m : StockMovement.t) :
  (forall p, In p (products state) ->
             Product.id p <> StockMovement.product_id m) ->
  MirrorStore.stockReducer clock state (add_movement m)
  = with_movements state (m :: movements state).
Proof.
  intros Hunknown. rewrite mirror_add_movement, map_unchanged.
  - rewrite with_products_same. reflexivity.
  - intros p Hp.
    destruct (String.eqb_spec (Product.id p) (StockMovement.product_id m))
      as [Heq | _]; [ exfalso; exact (Hunknown p Hp Heq) | reflexivity ].
Qed.

Lemma movement_for_unknown_product_witness :
  let state := stateOf [product "p1" "c1" 10 5 None] emptyFilter in
  let m := movement "p9" "out" 3 in
  (forall p, In p (products state) ->
             Product.id p <> StockMovement.product_id m)
  /\ products (MirrorStore.stockReducer fixedClock state (add_movement m))
     = products state
  /\ movements (MirrorStore.stockReducer fixedClock state (add_movement m))
     = [m].
Proof.
  intros state m.
  assert (Hunknown : forall p, In p (products state) ->
                               Product.id p <> StockMovement.product_id m).
  { intros p [<- | []]. discriminate. }
  split; [ exact Hunknown | ].
  rewrite (movement_for_unknown_product fixedClock state m Hunknown).
  split; reflexivity.
Defined.

(** X7. In [MirrorStore], for integer stocks and an integer quantity [q]
    in the range where the code's arithmetic is exact (no stock negative,
    [0 <= q], every [stock + q] at most 2^53), a movement "in" followed by
    a movement of any other type (the reducer takes every type but "in" as
    "out") of the same quantity for the same product brings every stock
    back to what it was; the reverse order does not, because "out" stops at
    zero (2 out 5 is 0, then in 5 is 5). *)
Theorem in_then_out_restores_stock (clock : Clock) (state : StockState)
    (m_in m_out : StockMovement.t) :
  StockMovement.type m_in = "in" ->
  StockMovement.type m_out <> "in" ->
  StockMovement.product_id m_out = StockMovement.product_id m_in ->
  StockMovement.quantity m_out = StockMovement.quantity m_in ->
  0 <= StockMovement.quantity m_in ->
  safe_integer (StockMovement.quantity m_in) ->
  Forall (fun p =>
            0 <= Product.current_stock p
            /\ safe_integer (Product.current_stock p
                             + StockMovement.quantity m_in))
         (products state) ->
  map Product.current_stock
      (products (after_movements clock state [m_in; m_out]))
  = map Product.current_stock (products state)
  /\ Forall (fun p => safe_integer (Product.current_stock p))
            (products (after_movements clock state [m_in]))
  /\ map Product.current_stock
       (products (after_movements fixedClock
                    (stateOf [product "p1" "c1" 2 5 None] emptyFilter)
                    [movement "p1" "out" 5; movement "p1" "in" 5]))
     = [5].
Proof.
  intros Hin Hout Hid Hq Hq0 Hqs Hs.
  split; [ | split; [ | reflexivity ] ].
  - unfold after_movements. cbn [fold_left].
    rewrite !mirror_add_movement_products, !map_map.
    apply map_ext_in. intros p Hp.
    destruct (proj1 (List.Forall_forall _ _) Hs p Hp) as [Hp0 _].
    rewrite Hid.
    destruct (Product.id p =? StockMovement.product_id m_in)%string eqn:Hp_id;
      simpl; rewrite Hp_id; simpl; [ | reflexivity ].
    unfold stock_after. simpl. rewrite Hin, Hq.
    destruct (String.eqb_spec (StockMovement.type m_out) "in");
      [ contradiction | ].
    simpl. lia.
  - unfold after_movements. cbn [fold_left].
    rewrite mirror_add_movement_products.
    apply List.Forall_forall. intros p' Hp'.
    apply in_map_iff in Hp'. destruct Hp' as (p & <- & Hp).
    destruct (proj1 (List.Forall_forall _ _) Hs p Hp) as [Hp0 Hsafe].
    unfold safe_integer in *.
    destruct (Product.id p =? StockMovement.product_id m_in)%string; simpl.
    + unfold stock_after. rewrite Hin. simpl. exact Hsafe.
    + lia.
Qed.

Lemma in_then_out_restores_stock_witness :
  let state := stateOf [product "p1" "c1" 2 5 None] emptyFilter in
  let m_in := movement "p1" "in" 5 in
  let m_out := movement "p1" "out" 5 in
  (0 <= StockMovement.quantity m_in
   /\ safe_integer (StockMovement.quantity m_in)
   /\ Forall (fun p =>
                0 <= Product.current_stock p
                /\ safe_integer (Product.current_stock p
                                 + StockMovement.quantity m_in))
             (products state))
  /\ map Product.current_stock
       (products (after_movements fixedClock state [m_in; m_out]))
     = [2].
Proof.
  intros state m_in m_out.
  assert (Hq0 : 0 <= StockMovement.quantity m_in) by (simpl; lia).
  assert (Hqs : safe_integer (StockMovement.quantity m_in))
    by (unfold safe_integer; simpl; lia).
  assert (Hs : Forall (fun p =>
                 0 <= Product.current_stock p
                 /\ safe_integer (Product.current_stock p
                                  + StockMovement.quantity m_in))
                 (products state)).
  { constructor; [ unfold safe_integer; simpl; lia | constructor ]. }
  assert (Hne : StockMovement.type m_out <> "in") by discriminate.
  split; [ repeat split; assumption | ].
  exact (proj1 (in_then_out_restores_stock fixedClock state m_in m_out
                  eq_refl Hne eq_refl eq_refl Hq0 Hqs Hs)).
Defined.

(** ** The statistics *)

Lemma fold_left_total (P : list Product.t) (start : Z) :
  fold_left (fun sum p => sum + Product.current_stock p * Product.unit_price p)
            P start
  = start + inventory_value P.
Proof.
  unfold inventory_value. revert start.
  induction P as [| p P IH]; intros start; simpl; [ lia | ].
  rewrite IH. lia.
Qed.

Lemma inventory_value_app (P Q : list Product.t) :
  inventory_value (P ++ Q) = inventory_value P + inventory_value Q.
Proof.
  unfold inventory_value. induction P as [| p P IH]; simpl; [ reflexivity | ].
  rewrite IH. lia.
Qed.

Lemma inventory_value_prefix (P : list Product.t) (k : nat) :
  Forall (fun p => 0 <= Product.current_stock p /\ 0 <= Product.unit_price p)
         P ->
  0 <= inventory_value (firstn k P) <= inventory_value P.
Proof.
  intros HP. revert k. unfold inventory_value.
  induction HP as [| p P [Hs Hu] _ IH]; intros k.
  - destruct k; simpl; lia.
  - destruct k as [| k]; simpl.
    + specialize (IH 0%nat). simpl in IH. nia.
    + specialize (IH k). nia.
Qed.

(** X8. For products whose stock and unit price are integers from 0 to
    2^53 and whose stock values add up to at most 2^53 - the range in which
    the additions and multiplications of the code are exact -
    [calculateStats] of [AttachedStore] and of [MemoryStore] returns as
    [totalValue] the sum of [current_stock * unit_price] over the products:
    every product and every running total of the reduction stays in that
    range.  [totalProducts] is the number of products. *)
Theorem total_value_is_sum (clock : Clock) (P : list Product.t)
    (M : list StockMovement.t) :
  Forall (fun p =>
            0 <= Product.current_stock p <= 2 ^ 53
            /\ 0 <= Product.unit_price p <= 2 ^ 53) P ->
  inventory_value P <= 2 ^ 53 ->
  totalValue (AttachedStore.calculateStats clock P M)
  = JS.Fin (inventory_value P)
  /\ totalValue (MemoryStore.calculateStats clock P M)
     = JS.Fin (inventory_value P)
  /\ (forall p, In p P ->
        safe_integer (Product.current_stock p * Product.unit_price p))
  /\ (forall k, safe_integer (inventory_value (firstn k P)))
  /\ totalProducts (AttachedStore.calculateStats clock P M) = length P.
Proof.
  intros HP Htotal.
  assert (Hpos : Forall (fun p => 0 <= Product.current_stock p
                                  /\ 0 <= Product.unit_price p) P).
  { apply List.Forall_forall. intros p Hp.
    destruct (proj1 (List.Forall_forall _ _) HP p Hp). lia. }
  assert (Hprefix : forall k, safe_integer (inventory_value (firstn k P))).
  { intros k. pose proof (inventory_value_prefix P k Hpos).
    unfold safe_integer. lia. }
  unfold AttachedStore.calculateStats, MemoryStore.calculateStats. simpl.
  rewrite !fold_left_total.
  split; [ f_equal; lia | ]. split; [ f_equal; lia | ].
  split; [ | split; [ exact Hprefix | reflexivity ] ].
  intros p Hp. apply in_split in Hp. destruct Hp as (P1 & P2 & ->).
  pose proof (Hprefix (length P1)) as H1.
  pose proof (Hprefix (S (length P1))) as H2.
  rewrite firstn_app, Nat.sub_diag, firstn_all in H1. cbn [firstn] in H1.
  rewrite app_nil_r in H1.
  replace (P1 ++ p :: P2)%list with ((P1 ++ [p]) ++ P2)%list in H2
    by (rewrite <- app_assoc; reflexivity).
  rewrite firstn_app in H2.
  replace (S (length P1) - length (P1 ++ [p])%list)%nat with 0%nat in H2
    by (rewrite length_app; simpl; lia).
  rewrite firstn_all2 in H2 by (rewrite length_app; simpl; lia).
  cbn [firstn] in H2. rewrite app_nil_r, inventory_value_app in H2.
  unfold inventory_value at 2 in H2. simpl in H2.
  pose proof (inventory_value_prefix (P1 ++ p :: P2) (length P1) Hpos) as H3.
  rewrite firstn_app, Nat.sub_diag, firstn_all in H3. cbn [firstn] in H3.
  rewrite app_nil_r in H3.
  destruct (proj1 (List.Forall_forall _ _) Hpos p (in_elt p P1 P2)).
  unfold safe_integer in *. nia.
Qed.

Lemma total_value_is_sum_witness :
  let P := [product "p1" "c1" 10 5 None; product "p2" "c1" 3 5 None] in
  (Forall (fun p =>
             0 <= Product.current_stock p <= 2 ^ 53
             /\ 0 <= Product.unit_price p <= 2 ^ 53) P
   /\ inventory_value P <= 2 ^ 53)
  /\ totalValue (AttachedStore.calculateStats fixedClock P []) = JS.Fin 1300.
Proof.
  intros P.
  assert (HP : Forall (fun p =>
                 0 <= Product.current_stock p <= 2 ^ 53
                 /\ 0 <= Product.unit_price p <= 2 ^ 53) P).
  { repeat (constructor; [ simpl; lia | ]). constructor. }
  assert (Htotal : inventory_value P <= 2 ^ 53)
    by (unfold inventory_value; simpl; lia).
  split; [ split; assumption | ].
  rewrite (proj1 (total_value_is_sum fixedClock P [] HP Htotal)).
  reflexivity.
Defined.

(** X9. For products whose stock is not negative, the counts of
    [calculateStats] in [AttachedStore] agree with [getStockLevel]:
    [lowStockItems] is the number of products whose level is 'low' and
    [outOfStockItems] the number whose level is 'out'. *)
Theorem stats_agree_with_stock_level (clock : Clock) (P : list Product.t)
    (M : list StockMovement.t) :
  Forall (fun p => 0 <= Product.current_stock p) P ->
  lowStockItems (AttachedStore.calculateStats clock P M)
  = count (fun p => StockLevel_eqb (AttachedStore.getStockLevel p) low) P
  /\ outOfStockItems (AttachedStore.calculateStats clock P M)
     = count (fun p => StockLevel_eqb (AttachedStore.getStockLevel p) out) P.
Proof.
  intros Hs. unfold AttachedStore.calculateStats, count. simpl.
  split; f_equal; apply filter_ext_in; intros p Hp;
    pose proof (proj1 (List.Forall_forall _ _) Hs p Hp) as Hp0; simpl in Hp0;
    unfold AttachedStore.getStockLevel;
    destruct (Z.eqb_spec (Product.current_stock p) 0);
    destruct (Z.leb_spec (Product.current_stock p) (Product.min_stock p));
    destruct (Z.leb_spec (Product.current_stock p) (Product.min_stock p * 2));
    destruct (Z.ltb_spec 0 (Product.current_stock p));
    simpl; try reflexivity; lia.
Qed.

Lemma stats_agree_with_stock_level_witness :
  let P := [ product "p1" "c1" 0 5 None; product "p2" "c1" 3 5 None;
             product "p3" "c1" 8 5 None; product "p4" "c1" 50 5 None ] in
  Forall (fun p => 0 <= Product.current_stock p) P
  /\ lowStockItems (AttachedStore.calculateStats fixedClock P []) = 1%nat
  /\ count (fun p => StockLevel_eqb (AttachedStore.getStockLevel p) low) P
     = 1%nat.
Proof.
  intros P.
  assert (Hs : Forall (fun p => 0 <= Product.current_stock p) P).
  { repeat (constructor; [ simpl; lia | ]). constructor. }
  split; [ exact Hs | ]. split; [ reflexivity | ].
  rewrite <- (proj1 (stats_agree_with_stock_level fixedClock P [] Hs)).
  reflexivity.
Defined.

(** X10. In [MemoryStore], when no product has a negative threshold, every
    product that is out of stock is also counted as low on stock:
    [outOfStockItems <= lowStockItems], and both are at most
    [totalProducts]. *)
Theorem memory_out_of_stock_counted_low (clock : Clock) (P : list Product.t)
    (M : list StockMovement.t) :
  Forall (fun p => 0 <= Product.min_stock p) P ->
  (outOfStockItems (MemoryStore.calculateStats clock P M)
   <= lowStockItems (MemoryStore.calculateStats clock P M))%nat
  /\ (lowStockItems (MemoryStore.calculateStats clock P M)
      <= totalProducts (MemoryStore.calculateStats clock P M))%nat.
Proof.
  intros Hmin. unfold MemoryStore.calculateStats. simpl.
  split; [ | apply filter_length_le ].
  induction Hmin as [| p P Hp _ IH]; simpl; [ lia | ].
  destruct (Z.eqb_spec (Product.current_stock p) 0) as [H0 | _];
    destruct (Z.leb_spec (Product.current_stock p) (Product.min_stock p));
    simpl; lia.
Qed.

Lemma memory_out_of_stock_counted_low_witness :
  let P := [product "p1" "c1" 0 5 None; product "p2" "c1" 3 5 None] in
  Forall (fun p => 0 <= Product.min_stock p) P
  /\ (outOfStockItems (MemoryStore.calculateStats fixedClock P [])
      <= lowStockItems (MemoryStore.calculateStats fixedClock P []))%nat
  /\ lowStockItems (MemoryStore.calculateStats fixedClock P []) = 2%nat.
Proof.
  intros P.
  assert (Hmin : Forall (fun p => 0 <= Product.min_stock p) P).
  { repeat (constructor; [ simpl; lia | ]). constructor. }
  split; [ exact Hmin | ].
  split; [ | reflexivity ].
  exact (proj1 (memory_out_of_stock_counted_low fixedClock P [] Hmin)).
Defined.

(** X11. [calculateStats] of [MirrorStore] reads [currentStock],
    [unitPrice] and [minStock], which the rows do not have: for every
    product list it reports 0 low-stock and 0 out-of-stock products, and a
    total value that is [NaN] as soon as there is one product; only
    [totalProducts] and [recentMovements] carry information. *)
Theorem mirror_stats_ignore_stock (clock : Clock) (P : list Product.t)
    (M : list StockMovement.t) :
  lowStockItems (MirrorStore.calculateStats clock P M) = 0%nat
  /\ outOfStockItems (MirrorStore.calculateStats clock P M) = 0%nat
  /\ totalValue (MirrorStore.calculateStats clock P M)
     = match P with [] => JS.Fin 0 | _ :: _ => JS.NaN end
  /\ totalProducts (MirrorStore.calculateStats clock P M) = length P
  /\ recentMovements (MirrorStore.calculateStats clock P M)
     = recentMovements (AttachedStore.calculateStats clock P M).
Proof.
  unfold MirrorStore.calculateStats, AttachedStore.calculateStats. simpl.
  split; [ | split; [ | split; [ | split; reflexivity ] ] ].
  - induction P as [| p P IH]; simpl; auto.
  - induction P as [| p P IH]; simpl; auto.
  - destruct P as [| p P]; simpl; [ reflexivity | ].
    induction P as [| q P IH]; simpl; auto.
Qed.

(** ** Filtering *)

Lemma memory_getFilteredProducts_unfold (toLowerCase : string -> string)
    (state : StockState) :
  MemoryStore.getFilteredProducts toLowerCase state
  = List.filter (fun p =>
      (negb (is_set (searchTerm (filter state)))
       || JS.includes (toLowerCase (Product.name p))
            (toLowerCase (default "" (searchTerm (filter state))))
       || JS.includes (toLowerCase (Product.sku p))
            (toLowerCase (default "" (searchTerm (filter state)))))
      && matches_category (filter state) p
      && matches_supplier (filter state) p
      && match stockLevel (filter state) with
         | None => true
         | Some l => StockLevel_eqb (MemoryStore.getStockLevel p) l
         end) (products state).
Proof.
  unfold MemoryStore.getFilteredProducts. cbv zeta.
  apply filter_ext. intros p.
  unfold matches_category, matches_supplier, is_set.
  destruct (category (filter state)), (supplier (filter state)); reflexivity.
Qed.

(** X12. [getFilteredProducts] only ever returns products of the state,
    and with no criterion set - each of search term, category and supplier
    absent or empty, no stock level - it returns all of them, in each
    version of the store. *)
Theorem no_filter_returns_all (toLowerCase : string -> string)
    (state : StockState) :
  (forall p, In p (AttachedStore.getFilteredProducts toLowerCase state) ->
             In p (products state))
  /\ (forall p, In p (MemoryStore.getFilteredProducts toLowerCase state) ->
                In p (products state))
  /\ (is_set (searchTerm (filter state)) = false ->
      is_set (category (filter state)) = false ->
      is_set (supplier (filter state)) = false ->
      stockLevel (filter state) = None ->
      AttachedStore.getFilteredProducts toLowerCase state = products state
      /\ MirrorStore.getFilteredProducts toLowerCase state = products state
      /\ MemoryStore.getFilteredProducts toLowerCase state = products state).
Proof.
  split; [ | split ].
  - intros p Hp. rewrite getFilteredProducts_conjunction in Hp.
    apply filter_In in Hp. exact (proj1 Hp).
  - intros p Hp. rewrite memory_getFilteredProducts_unfold in Hp.
    apply filter_In in Hp. exact (proj1 Hp).
  - intros Hsearch Hcat Hsup Hlvl.
    assert (Hattached :
      AttachedStore.getFilteredProducts toLowerCase state = products state).
    { rewrite getFilteredProducts_conjunction.
      unfold matches_search, matches_category, matches_supplier,
        matches_level.
      rewrite Hsearch, Hcat, Hsup, Hlvl. simpl.
      apply filter_all. reflexivity. }
    split; [ exact Hattached | ]. split; [ exact Hattached | ].
    rewrite memory_getFilteredProducts_unfold.
    unfold matches_category, matches_supplier.
    rewrite Hsearch, Hcat, Hsup, Hlvl. simpl.
    apply filter_all. reflexivity.
Qed.

Lemma no_filter_returns_all_witness :
  let P := [product "p1" "c1" 0 5 None; product "p2" "c2" 30 5 None] in
  let f := {| category := Some ""; supplier := None; stockLevel := None;
              searchTerm := Some "" |} in
  is_set (category f) = false
  /\ AttachedStore.getFilteredProducts (fun s => s) (stateOf P f) = P.
Proof.
  intros P f. split; [ reflexivity | ].
  destruct (no_filter_returns_all (fun s => s) (stateOf P f))
    as (_ & _ & Hall).
  exact (proj1 (Hall eq_refl eq_refl eq_refl eq_refl)).
Defined.

Lemma levels_partition (level : Product.t -> StockLevel) (P : list Product.t) :
  (count (fun p => StockLevel_eqb (level p) out) P
   + count (fun p => StockLevel_eqb (level p) low) P
   + count (fun p => StockLevel_eqb (level p) medium) P
   + count (fun p => StockLevel_eqb (level p) high) P)%nat
  = length P.
Proof.
  unfold count. induction P as [| p P IH]; simpl; [ reflexivity | ].
  destruct (level p); simpl; lia.
Qed.

(** X13. The four stock-level filters split the product list: a state's
    products each appear under exactly one of 'out', 'low', 'medium' and
    'high', so the four filtered lists have the products' number in total,
    with the bucketing of [AttachedStore] as with that of [MemoryStore]. *)
Theorem level_filters_partition (toLowerCase : string -> string)
    (state : StockState) :
  let shown := fun get l =>
    length (get toLowerCase (with_filter state (only_level l))) in
  (shown AttachedStore.getFilteredProducts out
   + shown AttachedStore.getFilteredProducts low
   + shown AttachedStore.getFilteredProducts medium
   + shown AttachedStore.getFilteredProducts high)%nat
  = length (products state)
  /\ (shown MemoryStore.getFilteredProducts out
      + shown MemoryStore.getFilteredProducts low
      + shown MemoryStore.getFilteredProducts medium
      + shown MemoryStore.getFilteredProducts high)%nat
     = length (products state)
  /\ forall p l l',
       In p (AttachedStore.getFilteredProducts toLowerCase
               (with_filter state (only_level l))) ->
       In p (AttachedStore.getFilteredProducts toLowerCase
               (with_filter state (only_level l'))) ->
       l = l'.
Proof.
  intros shown. subst shown. cbv beta.
  split; [ | split ].
  - rewrite <- (levels_partition AttachedStore.getStockLevel (products state)).
    reflexivity.
  - rewrite <- (levels_partition MemoryStore.getStockLevel (products state)).
    rewrite !memory_getFilteredProducts_unfold. reflexivity.
  - intros p l l' Hl Hl'.
    rewrite getFilteredProducts_conjunction in Hl, Hl'.
    apply filter_In in Hl, Hl'.
    destruct Hl as [_ Hl], Hl' as [_ Hl']. simpl in Hl, Hl'.
    apply StockLevel_eqb_eq in Hl, Hl'. congruence.
Qed.

(** X14. The search of [getFilteredProducts] does not depend on the case of
    the search term: two terms, both not empty, with the same lower-case
    form select the same products, in [AttachedStore] (name, SKU and
    description are searched) and in [MemoryStore] (name and SKU are). *)
Theorem search_ignores_case (toLowerCase : string -> string)
    (state : StockState) (t1 t2 : string) :
  t1 <> "" -> t2 <> "" ->
  toLowerCase t1 = toLowerCase t2 ->
  AttachedStore.getFilteredProducts toLowerCase
    (with_filter state (only_search t1))
  = AttachedStore.getFilteredProducts toLowerCase
      (with_filter state (only_search t2))
  /\ MemoryStore.getFilteredProducts toLowerCase
       (with_filter state (only_search t1))
     = MemoryStore.getFilteredProducts toLowerCase
         (with_filter state (only_search t2)).
Proof.
  intros H1 H2 Hlower.
  unfold AttachedStore.getFilteredProducts, MemoryStore.getFilteredProducts.
  simpl.
  destruct (String.eqb_spec t1 ""); [ contradiction | ].
  destruct (String.eqb_spec t2 ""); [ contradiction | ].
  simpl. rewrite Hlower. split; reflexivity.
Qed.

Lemma search_ignores_case_witness :
  let state := stateOf [ product "p1" "c1" 0 5 None ] emptyFilter in
  ("WID" <> "" /\ "wid" <> "" /\ asciiLower "WID" = asciiLower "wid")
  /\ AttachedStore.getFilteredProducts asciiLower
       (with_filter state (only_search "WID"))
     = products state
  /\ AttachedStore.getFilteredProducts asciiLower
       (with_filter state (only_search "wid"))
     = products state.
Proof.
  intros state.
  assert (H1 : "WID" <> "") by discriminate.
  assert (H2 : "wid" <> "") by discriminate.
  split; [ repeat split; assumption | ].
  destruct (search_ignores_case asciiLower state "WID" "wid" H1 H2 eq_refl)
    as [Hsame _].
  rewrite Hsame. split; reflexivity.
Defined.

(** ** The categories page: loading *)

(** X15. After a load of the categories page that the store answers
    without error, the page holds the category rows in the order the store
    presents them, and for every category id a count equal to the number of
    product rows that reference it (0 for an id no product references);
    nothing is notified and the loading flag is off. *)
Theorem load_counts_references (p : CategoriesPage.page) (r : Supabase.remote) :
  Supabase.faulty r Supabase.select_categories = false ->
  Supabase.faulty r Supabase.select_product_categories = false ->
  let p' := fst (CategoriesPage.fetchCategories p r) in
  CategoriesPage.categories p'
  = Supabase.ordered r (Supabase.category_rows r)
  /\ (forall id, default 0%nat (CategoriesPage.productCounts p' !! id)
                 = Supabase.referencing id r)
  /\ CategoriesPage.toasts p' = CategoriesPage.toasts p
  /\ CategoriesPage.isLoading p' = false.
Proof.
  intros Hc Hp p'. subst p'.
  split; [ | split ].
  - unfold CategoriesPage.fetchCategories, Supabase.select_all_categories,
      Supabase.select_category_ids. simpl. rewrite Hc. simpl. rewrite Hp.
    reflexivity.
  - intros id. apply fetchCategories_counts; assumption.
  - unfold CategoriesPage.fetchCategories, Supabase.select_all_categories,
      Supabase.select_category_ids. simpl. rewrite Hc. simpl. rewrite Hp.
    split; reflexivity.
Qed.

Lemma load_counts_references_witness :
  (Supabase.faulty sampleRemote Supabase.select_categories = false
   /\ Supabase.faulty sampleRemote Supabase.select_product_categories = false)
  /\ map Category.id (CategoriesPage.categories samplePage) = ["c2"; "c1"]
  /\ default 0%nat (CategoriesPage.productCounts samplePage !! "c1")
     = Supabase.referencing "c1" sampleRemote
  /\ default 0%nat (CategoriesPage.productCounts samplePage !! "c9") = 0%nat.
Proof.
  split; [ split; reflexivity | ].
  destruct (load_counts_references
              {| CategoriesPage.categories := [];
                 CategoriesPage.productCounts := ∅;
                 CategoriesPage.isLoading := true;
                 CategoriesPage.toasts := [] |}
              sampleRemote eq_refl eq_refl) as (_ & Hcounts & _).
  split; [ reflexivity | ].
  split; [ exact (Hcounts "c1") | ].
  rewrite (Hcounts "c9" : default 0%nat
             (CategoriesPage.productCounts samplePage !! "c9") = _).
  reflexivity.
Defined.

(** X16. A load of the categories page never writes to the store, and when
    the store answers either of its two requests with an error the page
    keeps the categories and the counts it had, notifies the failure once
    and turns the loading flag off; after an error on the first request the
    second is not sent. *)
Theorem failed_load_keeps_page (p : CategoriesPage.page) (r : Supabase.remote) :
  let p' := fst (CategoriesPage.fetchCategories p r) in
  let r' := snd (CategoriesPage.fetchCategories p r) in
  (Supabase.category_rows r' = Supabase.category_rows r
   /\ Supabase.product_rows r' = Supabase.product_rows r
   /\ CategoriesPage.isLoading p' = false)
  /\ (Supabase.faulty r Supabase.select_categories = true
      \/ Supabase.faulty r Supabase.select_product_categories = true ->
      CategoriesPage.categories p' = CategoriesPage.categories p
      /\ CategoriesPage.productCounts p' = CategoriesPage.productCounts p
      /\ CategoriesPage.toasts p'
         = CategoriesPage.load_failed :: CategoriesPage.toasts p)
  /\ (Supabase.faulty r Supabase.select_categories = true ->
      Supabase.calls r' = Supabase.select_categories :: Supabase.calls r).
Proof.
  intros p' r'. subst p' r'.
  unfold CategoriesPage.fetchCategories, Supabase.select_all_categories,
    Supabase.select_category_ids. simpl.
  destruct (Supabase.faulty r Supabase.select_categories) eqn:Hc; simpl.
  - repeat split.
  - destruct (Supabase.faulty r Supabase.select_product_categories) eqn:Hp;
      simpl.
    + repeat split. intros Habs. discriminate Habs.
    + split; [ repeat split | ].
      split; [ intros [Habs | Habs]; discriminate Habs | ].
      intros Habs. discriminate Habs.
Qed.

(** ** The store's [deleteCategory] *)

(** X17. [deleteCategory] of [MirrorStore] keeps the local category list
    equal to the store's rows when it was so before, whether the store
    accepts the delete or not; when the store refuses, the local state is
    left as it is; in no case does it touch the products, so products that
    reference the deleted category stay in the list. *)
Theorem delete_category_keeps_cache (clock : Clock) (id : string)
    (state : StockState) (r : Supabase.remote) :
  let state' := fst (MirrorStore.deleteCategory clock id state r) in
  let r' := snd (MirrorStore.deleteCategory clock id state r) in
  (categories state = Supabase.category_rows r ->
   categories state' = Supabase.category_rows r')
  /\ (Supabase.faulty r (Supabase.delete_category id) = true ->
      state' = state)
  /\ state' = with_categories state (categories state')
  /\ Supabase.product_rows r' = Supabase.product_rows r.
Proof.
  intros state' r'. subst state' r'.
  unfold MirrorStore.deleteCategory, Supabase.delete_from_categories.
  destruct (Supabase.faulty r (Supabase.delete_category id)); simpl.
  - repeat split; try (intros; assumption). destruct state; reflexivity.
  - repeat split.
    + intros Hsame. rewrite Hsame. reflexivity.
    + intros Habs. discriminate Habs.
Qed.

(** ** The overview of the dashboard *)

(** X18. In the stock overview a product's badge is 'normal' exactly when
    the product is in neither alert list; the alert summary is hidden
    exactly when every product's badge is 'normal'; and a product that is
    out of stock, its threshold not being negative, is listed in both
    alert lists. *)
Theorem overview_badge_matches_alerts (products : list Product.t) :
  (forall p, In p products ->
     (StockOverview.getStockLevel p = StockOverview.normal <->
      ~ In p (StockOverview.lowStockItems products)
      /\ ~ In p (StockOverview.outOfStockItems products)))
  /\ (StockOverview.alertShown products = false <->
      forall p, In p products ->
                StockOverview.getStockLevel p = StockOverview.normal)
  /\ (forall p, In p (StockOverview.outOfStockItems products) ->
                0 <= Product.min_stock p ->
                In p (StockOverview.lowStockItems products)).
Proof.
  assert (Hbadge : forall p, In p products ->
    (StockOverview.getStockLevel p = StockOverview.normal <->
     ~ In p (StockOverview.lowStockItems products)
     /\ ~ In p (StockOverview.outOfStockItems products))).
  { intros p Hp.
    unfold StockOverview.getStockLevel, StockOverview.lowStockItems,
      StockOverview.outOfStockItems.
    rewrite !filter_In.
    destruct (Z.eqb_spec (Product.current_stock p) 0);
      destruct (Z.leb_spec (Product.current_stock p) (Product.min_stock p));
      split; try discriminate; try tauto; intuition discriminate. }
  split; [ exact Hbadge | ]. split.
  - unfold StockOverview.alertShown. rewrite orb_false_iff, !Nat.ltb_ge.
    split.
    + intros [Hlow Hout] p Hp. apply Hbadge; [ exact Hp | ].
      assert (Hl : StockOverview.lowStockItems products = [])
        by (apply length_zero_iff_nil; lia).
      assert (Ho : StockOverview.outOfStockItems products = [])
        by (apply length_zero_iff_nil; lia).
      rewrite Hl, Ho. simpl. tauto.
    + intros Hall.
      assert (Hl : StockOverview.lowStockItems products = []).
      { destruct (StockOverview.lowStockItems products) as [| x l] eqn:E;
          [ reflexivity | ].
        assert (Hx : In x (StockOverview.lowStockItems products))
          by (rewrite E; left; reflexivity).
        pose proof Hx as Hx'. apply filter_In in Hx'.
        destruct (proj1 (Hbadge x (proj1 Hx')) (Hall x (proj1 Hx'))) as [Hn _].
        exfalso. apply Hn. left. reflexivity. }
      assert (Ho : StockOverview.outOfStockItems products = []).
      { destruct (StockOverview.outOfStockItems products) as [| x l] eqn:E;
          [ reflexivity | ].
        assert (Hx : In x (StockOverview.outOfStockItems products))
          by (rewrite E; left; reflexivity).
        pose proof Hx as Hx'. apply filter_In in Hx'.
        destruct (proj1 (Hbadge x (proj1 Hx')) (Hall x (proj1 Hx'))) as [_ Hn].
        exfalso. apply Hn. left. reflexivity. }
      rewrite Hl, Ho. simpl. lia.
  - intros p Hp Hmin.
    unfold StockOverview.outOfStockItems, StockOverview.lowStockItems in *.
    apply filter_In in Hp. destruct Hp as [Hp H0].
    apply filter_In. split; [ exact Hp | ]. lia.
Qed.

(** X19. The badge of the overview and the stock level of the stores agree
    on 'out' and 'low' in all three versions, and the overview's 'normal'
    is the stores' 'medium' or 'high'. *)
Theorem overview_badge_agrees_with_store (p : Product.t) :
  let same := fun (l : StockLevel) =>
    match StockOverview.getStockLevel p, l with
    | StockOverview.out, out | StockOverview.low, low
    | StockOverview.normal, medium | StockOverview.normal, high => True
    | _, _ => False
    end in
  same (AttachedStore.getStockLevel p)
  /\ same (MemoryStore.getStockLevel p)
  /\ same (MirrorStore.getStockLevel p).
Proof.
  cbv zeta.
  unfold StockOverview.getStockLevel, AttachedStore.getStockLevel,
    MemoryStore.getStockLevel, MirrorStore.getStockLevel.
  destruct (Product.current_stock p =? 0); [ repeat split | ].
  destruct (Product.current_stock p <=? Product.min_stock p);
    [ repeat split | ].
  destruct (Product.current_stock p <=? Product.min_stock p * 2);
    destruct (Product.max_stock p) as [m |]; simpl;
    try destruct (negb (m =? 0) && (m <=? Product.current_stock p));
    repeat split.
Qed.

(** ** CSV export and import: strings *)

Lemma lacks_cons (c d : ascii) (s : string) :
  lacks c (String d s) <-> d <> c /\ lacks c s.
Proof. unfold lacks. simpl. tauto. Qed.

Lemma lacks_append (c : ascii) (s t : string) :
  lacks c (s +:+ t) <-> lacks c s /\ lacks c t.
Proof.
  unfold lacks. induction s as [| d s IH]; simpl; tauto.
Qed.



Lemma split_lacks (sep : ascii) (s : string) :
  lacks sep s -> split sep s = [s].
Proof.
  induction s as [| c s IH]; intros Hs; simpl; [ reflexivity | ].
  apply lacks_cons in Hs. destruct Hs as [Hc Hs].
  destruct (Ascii.eqb_spec c sep); [ contradiction | ].
  rewrite (IH Hs). reflexivity.
Qed.

Lemma split_piece (sep : ascii) (s t : string) :
  lacks sep s ->
  split sep (s +:+ String sep t) = s :: split sep t.
Proof.
  induction s as [| c s IH]; intros Hs; simpl.
  - rewrite Ascii.eqb_refl. reflexivity.
  - apply lacks_cons in Hs. destruct Hs as [Hc Hs].
    destruct (Ascii.eqb_spec c sep); [ contradiction | ].
    rewrite (IH Hs). reflexivity.
Qed.

(** [split] undoes [join] on pieces that do not hold the separator. *)
Lemma split_join (sep : ascii) (l : list string) :
  l <> [] -> Forall (lacks sep) l -> split sep (join sep l) = l.
Proof.
  unfold join. intros Hne Hl.
  induction Hl as [| x l Hx Hl IH]; [ contradiction | ].
  destruct l as [| y l].
  - simpl. apply split_lacks. exact Hx.
  - change (String.concat (String sep EmptyString) (x :: y :: l))
      with (x +:+ String sep (String.concat (String sep EmptyString) (y :: l))).
    rewrite split_piece by exact Hx.
    rewrite IH by discriminate. reflexivity.
Qed.

Lemma join_lacks (sep c : ascii) (l : list string) :
  sep <> c -> Forall (lacks c) l -> lacks c (join sep l).
Proof.
  unfold join. intros Hsep Hl.
  induction Hl as [| x l Hx Hl IH]; [ unfold lacks; simpl; tauto | ].
  destruct l as [| y l]; [ exact Hx | ].
  change (String.concat (String sep EmptyString) (x :: y :: l))
    with (x +:+ String sep (String.concat (String sep EmptyString) (y :: l))).
  apply lacks_append. split; [ exact Hx | ].
  apply lacks_cons. split; [ exact Hsep | exact IH ].
Qed.







(** ** CSV export and import: records *)







Lemma put_fresh {V : Type} (o : object V) (k : string) (v : V) :
  ~ In k (keys o) -> put o k v = (o ++ [(k, v)])%list.
Proof.
  induction o as [| [k' v'] o IH]; simpl; intros Hk; [ reflexivity | ].
  destruct (String.eqb_spec k' k) as [-> | _]; [ tauto | ].
  rewrite IH by tauto. reflexivity.
Qed.










(** ** CSV export: what reaches the file *)

Lemma decimal_lacks_newline (d : Decimal.uint) :
  lacks newline (NilEmpty.string_of_uint d).
Proof.
  induction d; simpl;
    [ unfold lacks; simpl; tauto | .. ];
    (apply lacks_cons; split; [ discriminate | assumption ]).
Qed.

Lemma number_lacks_newline (z : Z) :
  lacks newline (NilZero.string_of_int (Z.to_int z)).
Proof.
  unfold NilZero.string_of_int, NilZero.string_of_uint.
  destruct (Z.to_int z) as [d | d].
  - destruct d; try apply (decimal_lacks_newline (_ _));
      unfold lacks; simpl; intuition discriminate.
  - apply lacks_cons. split; [ discriminate | ].
    destruct d; try apply (decimal_lacks_newline (_ _));
      unfold lacks; simpl; intuition discriminate.
Qed.

Lemma hex_digit_not_newline (n : nat) : hex_digit n <> newline.
Proof.
  unfold hex_digit.
  destruct (nth_in_or_default n (list_ascii_of_string "0123456789abcdef")
              "0"%char) as [Hin | ->]; [ | discriminate ].
  revert Hin. generalize (nth n (list_ascii_of_string "0123456789abcdef")
                            "0"%char).
  intros c Hin. simpl in Hin.
  repeat (destruct Hin as [<- | Hin]; [ discriminate | ]). contradiction.
Qed.

Lemma escape_char_lacks_newline (c : ascii) : lacks newline (escape_char c).
Proof.
  unfold escape_char. cbv zeta.
  destruct (Nat.eqb_spec (nat_of_ascii c) 34);
    [ unfold lacks; simpl; intuition discriminate | ].
  destruct (Nat.eqb_spec (nat_of_ascii c) 92);
    [ unfold lacks; simpl; intuition discriminate | ].
  destruct (Nat.eqb_spec (nat_of_ascii c) 8);
    [ unfold lacks; simpl; intuition discriminate | ].
  destruct (Nat.eqb_spec (nat_of_ascii c) 12);
    [ unfold lacks; simpl; intuition discriminate | ].
  destruct (Nat.eqb_spec (nat_of_ascii c) 10);
    [ unfold lacks; simpl; intuition discriminate | ].
  destruct (Nat.eqb_spec (nat_of_ascii c) 13);
    [ unfold lacks; simpl; intuition discriminate | ].
  destruct (Nat.eqb_spec (nat_of_ascii c) 9);
    [ unfold lacks; simpl; intuition discriminate | ].
  destruct (nat_of_ascii c <? 32)%nat.
  - apply lacks_append. split; [ unfold lacks; simpl; intuition discriminate | ].
    apply lacks_cons. split; [ apply hex_digit_not_newline | ].
    apply lacks_cons. split; [ apply hex_digit_not_newline | ].
    unfold lacks; simpl; tauto.
  - apply lacks_cons. split; [ | unfold lacks; simpl; tauto ].
    intros ->. unfold newline in *.
    match goal with
    | H : nat_of_ascii (ascii_of_nat 10) <> 10%nat |- _ =>
        apply H; vm_compute; reflexivity
    end.
Qed.

Lemma escape_lacks_newline (s : string) : lacks newline (escape s).
Proof.
  induction s as [| c s IH]; simpl; [ unfold lacks; simpl; tauto | ].
  apply lacks_append. split; [ apply escape_char_lacks_newline | exact IH ].
Qed.

Lemma cell_lacks_newline (row : object JS.value) (header : string) :
  lacks newline (cell row header).
Proof.
  unfold cell, JS.or_else.
  destruct (JS.truthy (field row header));
    [ | unfold lacks; simpl; intuition discriminate ].
  destruct (field row header) as [| | [|] | z | | s]; simpl;
    try (unfold lacks; simpl; intuition discriminate).
  - apply number_lacks_newline.
  - unfold quote. apply lacks_cons. split; [ discriminate | ].
    apply lacks_append. split; [ apply escape_lacks_newline | ].
    unfold lacks; simpl; intuition discriminate.
Qed.

(** X21. The file [exportDataToCSV] writes has exactly one line per record
    after the header line, whatever the values are - a line break inside a
    text is written as backslash-n - provided no key of the first record
    holds a line break; so the import finds at most as many records as
    were exported.  For no record at all, no file is written. *)
Theorem csv_export_one_line_per_record (first : object JS.value)
    (rest : list (object JS.value)) :
  Forall (lacks newline) (keys first) ->
  exportDataToCSV [] = None
  /\ exists csv,
       exportDataToCSV (first :: rest) = Some csv
       /\ split newline csv
          = join comma (keys first)
            :: map (fun row => join comma (map (cell row) (keys first)))
                   (first :: rest)
       /\ length (split newline csv) = S (length (first :: rest))
       /\ (length (parseCSVFile csv) <= length (first :: rest))%nat.
Proof.
  intros Hkeys. split; [ reflexivity | ].
  eexists. split; [ reflexivity | ].
  assert (Hlines :
    split newline
      (join newline
         (join comma (keys first)
          :: map (fun row => join comma (map (cell row) (keys first)))
                 (first :: rest)))
    = join comma (keys first)
      :: map (fun row => join comma (map (cell row) (keys first)))
             (first :: rest)).
  { apply split_join; [ discriminate | ].
    constructor.
    - apply join_lacks; [ discriminate | exact Hkeys ].
    - apply List.Forall_forall. intros line Hline.
      apply in_map_iff in Hline. destruct Hline as (row & <- & _).
      apply join_lacks; [ discriminate | ].
      apply List.Forall_forall. intros c Hc.
      apply in_map_iff in Hc. destruct Hc as (h & <- & _).
      apply cell_lacks_newline. }
  split; [ exact Hlines | ]. split.
  - rewrite Hlines. cbn [length]. rewrite length_map. reflexivity.
  - rewrite parseCSVFile_unfold. cbv zeta. rewrite Hlines. cbn [tl].
    etransitivity; [ apply filter_length_le | ].
    rewrite !length_map. reflexivity.
Qed.

Lemma csv_export_one_line_per_record_witness :
  let first : object JS.value :=
    [("name", JS.text (String newline "two lines")); ("qty", JS.number 3)] in
  Forall (lacks newline) (keys first)
  /\ option_map (fun csv => length (split newline csv))
       (exportDataToCSV [first; first]) = Some 3%nat.
Proof.
  intros first.
  assert (Hkeys : Forall (lacks newline) (keys first)).
  { repeat (constructor; [ unfold lacks; simpl; intuition discriminate | ]).
    constructor. }
  split; [ exact Hkeys | ].
  destruct (csv_export_one_line_per_record first [first] Hkeys)
    as (_ & csv & Hcsv & _ & Hlen & _).
  rewrite Hcsv. simpl. rewrite Hlen. reflexivity.
Defined.

(** X22. Only the keys of the first record reach the file: two lists of
    records whose first records have the same keys and whose records agree,
    position by position, on the values under those keys export to the same
    text - so a property the first record does not have is never written,
    whatever the other records hold under it. *)
Theorem csv_export_uses_first_keys (data data' : list (object JS.value)) :
  keys (hd [] data) = keys (hd [] data') ->
  Forall2 (fun row row' =>
             forall k, In k (keys (hd [] data)) -> field row k = field row' k)
          data data' ->
  exportDataToCSV data = exportDataToCSV data'.
Proof.
  intros Hkeys Hrows.
  remember (keys (hd [] data)) as ks eqn:Hks.
  assert (Hall := Hrows).
  destruct Hrows as [| row row' others others' _ _]; [ reflexivity | ].
  cbn [hd] in *. unfold exportDataToCSV. rewrite <- Hkeys, <- Hks.
  do 3 f_equal. clear Hkeys Hks.
  induction Hall as [| r r' l l' Hr _ IH]; [ reflexivity | ].
  cbn [map]. rewrite IH. f_equal. f_equal.
  apply map_ext_in. intros k Hk. unfold cell. rewrite (Hr k Hk). reflexivity.
Qed.

Lemma csv_export_uses_first_keys_witness :
  let data := [ [("name", JS.text "Widget")];
                [("name", JS.text "Bolt"); ("location", JS.text "A1-01")] ] in
  let data' := [ [("name", JS.text "Widget")]; [("name", JS.text "Bolt")] ] in
  keys (hd [] data) = keys (hd [] data')
  /\ exportDataToCSV data = exportDataToCSV data'.
Proof.
  intros data data'.
  assert (Hkeys : keys (hd [] data) = keys (hd [] data')) by reflexivity.
  split; [ exact Hkeys | ].
  apply (csv_export_uses_first_keys data data' Hkeys).
  repeat (constructor; [ intros k [<- | []]; reflexivity | ]).
  constructor.
Defined.

(** ** CSV import: the shape of the records *)

Lemma fold_put_cells (cellAt : nat -> string) (ihs : list (nat * string)) :
  forall acc : object string,
    List.NoDup (map snd ihs) ->
    (forall h, In h (map snd ihs) -> ~ In h (keys acc)) ->
    fold_left (fun obj '(index, header) => put obj header (cellAt index))
              ihs acc
    = (acc ++ map (fun '(index, header) => (header, cellAt index)) ihs)%list.
Proof.
  induction ihs as [| [i h] ihs IH]; intros acc Hnd Hfresh; simpl.
  - rewrite app_nil_r. reflexivity.
  - simpl in Hnd. inversion Hnd as [| h0 hs0 Hh Hhs]; subst.
    rewrite put_fresh by (apply Hfresh; left; reflexivity).
    rewrite IH.
    + rewrite <- app_assoc. reflexivity.
    + exact Hhs.
    + intros h' Hh'. unfold keys. rewrite List.map_app, in_app_iff. simpl.
      intros [Hin | [-> | []]].
      * apply (Hfresh h'); [ right; exact Hh' | exact Hin ].
      * contradiction.
Qed.

Lemma snd_combine_seq {A : Type} (l : list A) (k : nat) :
  map snd (combine (seq k (length l)) l) = l.
Proof.
  revert k. induction l as [| x l IH]; intros k; simpl;
    [ | rewrite IH ]; reflexivity.
Qed.

Lemma record_of_columns (headers : list string) (line : string) :
  List.NoDup headers ->
  record_of headers line
  = map (fun '(index, header) =>
           (header,
            nth index (map strip_quotes (split comma line)) EmptyString))
        (combine (seq 0 (length headers)) headers)
  /\ keys (record_of headers line) = headers.
Proof.
  intros Hnd.
  assert (Hrec : record_of headers line
    = map (fun '(index, header) =>
             (header,
              nth index (map strip_quotes (split comma line)) EmptyString))
          (combine (seq 0 (length headers)) headers)).
  { unfold record_of. cbv zeta.
    rewrite (fold_put_cells
               (fun index =>
                  nth index (map strip_quotes (split comma line)) EmptyString)).
    - reflexivity.
    - rewrite snd_combine_seq. exact Hnd.
    - intros h _ []. }
  split; [ exact Hrec | ].
  rewrite Hrec. unfold keys. rewrite map_map.
  transitivity (map snd (combine (seq 0 (length headers)) headers));
    [ apply map_ext; intros [i h]; reflexivity | apply snd_combine_seq ].
Qed.

(** X23. When the header row of a CSV file names no column twice and
    every column name is an ordinary key - not made of digits only and not
    [__proto__], the names an object keeps in the order they were set -
    every record the import returns has exactly the header's column names as
    keys, in the header's order, whatever the number of cells on its line:
    the value under the i-th column is the i-th cell of the line with
    double quotes removed, the empty string when the line has fewer cells,
    and cells beyond the last column are left out. *)
Theorem parse_csv_records_follow_header (csv : string) (obj : object string) :
  List.NoDup (headers_of csv) ->
  Forall (fun header => ordinary_key header = true) (headers_of csv) ->
  In obj (parseCSVFile csv) ->
  keys obj = headers_of csv
  /\ exists line,
       In line (tl (split newline csv))
       /\ obj = map (fun '(index, header) =>
                       (header,
                        nth index (map strip_quotes (split comma line))
                            EmptyString))
                    (combine (seq 0 (length (headers_of csv)))
                             (headers_of csv)).
Proof.
  intros Hnd _ Hin. rewrite parseCSVFile_unfold in Hin. cbv zeta in Hin.
  apply filter_In in Hin. destruct Hin as [Hin _].
  apply in_map_iff in Hin. destruct Hin as (line & <- & Hline).
  fold (headers_of csv).
  destruct (record_of_columns (headers_of csv) line Hnd) as [Hrec Hkeys].
  split; [ exact Hkeys | ].
  exists line. split; [ exact Hline | exact Hrec ].
Qed.

Lemma parse_csv_records_follow_header_witness :
  let csv := join newline ["name,sku,unit"; "Widget"; "Bolt,B-1,box,extra"] in
  (List.NoDup (headers_of csv)
   /\ Forall (fun header => ordinary_key header = true) (headers_of csv)
   /\ In [("name", "Widget"); ("sku", ""); ("unit", "")] (parseCSVFile csv))
  /\ parseCSVFile csv
     = [ [("name", "Widget"); ("sku", ""); ("unit", "")];
         [("name", "Bolt"); ("sku", "B-1"); ("unit", "box")] ]
  /\ keys [("name", "Widget"); ("sku", ""); ("unit", "")] = headers_of csv.
Proof.
  intros csv.
  assert (Hnd : List.NoDup (headers_of csv)).
  { vm_compute.
    repeat (apply List.NoDup_cons; [ simpl; intuition discriminate | ]).
    apply List.NoDup_nil. }
  assert (Hkeys : Forall (fun header => ordinary_key header = true)
                         (headers_of csv))
    by (vm_compute; repeat constructor).
  assert (Hin : In [("name", "Widget"); ("sku", ""); ("unit", "")]
                   (parseCSVFile csv)) by (left; reflexivity).
  split; [ repeat split; assumption | ]. split; [ reflexivity | ].
  exact (proj1 (parse_csv_records_follow_header csv _ Hnd Hkeys Hin)).
Defined.

(** X24. The import returns at most one record per line after the first,
    in the order of the lines, and none for a file without a line break -
    the empty file and the file that holds only a header row. *)
Theorem parse_csv_header_only (csv : string) :
  (length (parseCSVFile csv) <= length (split newline csv) - 1)%nat
  /\ (lacks newline csv -> parseCSVFile csv = [])
  /\ parseCSVFile EmptyString = [].
Proof.
  split; [ | split ].
  - rewrite parseCSVFile_unfold. cbv zeta.
    etransitivity; [ apply filter_length_le | ].
    rewrite length_map.
    destruct (split newline csv); simpl; lia.
  - intros Hcsv. rewrite parseCSVFile_unfold. cbv zeta.
    rewrite (split_lacks newline csv Hcsv). reflexivity.
  - reflexivity.
Qed.

(** ** The budget request dialog *)

Lemma filter_index_from {A : Type} (l : list A) :
  forall k index,
    map snd (List.filter (fun '(i, _) => negb (i =? k + index)%nat)
                         (combine (seq k (length l)) l))
    = (firstn index l ++ skipn (S index) l)%list.
Proof.
  induction l as [| x l IH]; intros k index.
  - destruct index; reflexivity.
  - cbn [length seq combine List.filter].
    destruct index as [| index].
    + rewrite Nat.add_0_r, Nat.eqb_refl. cbn [negb firstn skipn app].
      rewrite filter_none_removed; [ apply snd_combine_seq | ].
      intros [i y] Hin. apply in_combine_l in Hin. apply in_seq in Hin.
      destruct (Nat.eqb_spec i k); [ lia | reflexivity ].
    + destruct (Nat.eqb_spec k (k + S index)); [ lia | ].
      cbn [negb map snd firstn skipn app]. f_equal.
      replace (k + S index)%nat with (S k + index)%nat by lia.
      apply IH.
Qed.

Lemma filter_index_removes {A : Type} (index : nat) (l : list A) :
  BudgetDialog.filter_index (fun i => negb (i =? index)%nat) l
  = (firstn index l ++ skipn (S index) l)%list.
Proof. unfold BudgetDialog.filter_index. apply (filter_index_from l 0). Qed.

Lemma with_material_list_same (formData : BudgetDialog.BudgetRequestForm) :
  BudgetDialog.with_material_list formData
    (BudgetDialog.material_list formData)
  = formData.
Proof. destruct formData; reflexivity. Qed.

(** X25. Editing the material list of the budget request dialog never
    leaves it without a row: adding appends one blank row; removing row
    [index] gives the list without that row or, when no row is left, the
    list of one blank row - so removing the only row [m] leaves exactly one
    blank row in its place, and removing at another index leaves [m]; an
    index beyond the list removes nothing; updating a row keeps the number
    of rows, and fails only for an index beyond the list. *)
Theorem material_list_never_empty (formData : BudgetDialog.BudgetRequestForm)
    (index : nat) (f : BudgetDialog.field) (value : string) :
  let l := BudgetDialog.material_list formData in
  let removed :=
    BudgetDialog.material_list
      (BudgetDialog.removeMaterialItem index formData) in
  BudgetDialog.material_list (BudgetDialog.addMaterialItem formData)
  = (l ++ [BudgetDialog.blankItem])%list
  /\ removed <> []
  /\ removed = match (firstn index l ++ skipn (S index) l)%list with
               | [] => [BudgetDialog.blankItem]
               | m :: rest => m :: rest
               end
  /\ (forall m, l = [m] ->
      removed = if (index =? 0)%nat then [BudgetDialog.blankItem] else [m])
  /\ ((1 < length l)%nat ->
      removed = (firstn index l ++ skipn (S index) l)%list)
  /\ ((index < length l)%nat ->
      length removed = Nat.max 1 (length l - 1))
  /\ ((length l <= index)%nat -> l <> [] ->
      BudgetDialog.removeMaterialItem index formData = formData)
  /\ (BudgetDialog.updateMaterialItem index f value formData = None <->
      (length l <= index)%nat)
  /\ (forall formData',
        BudgetDialog.updateMaterialItem index f value formData
        = Some formData' ->
        length (BudgetDialog.material_list formData') = length l).
Proof.
  intros l removed. subst removed.
  unfold BudgetDialog.removeMaterialItem. cbv zeta.
  rewrite filter_index_removes. fold l.
  assert (Hlen : length (firstn index l ++ skipn (S index) l)%list
                 = if (index <? length l)%nat then (length l - 1)%nat
                   else length l).
  { rewrite length_app, length_firstn, length_skipn.
    destruct (Nat.ltb_spec index (length l)); lia. }
  split; [ reflexivity | ].
  split; [ | split; [ | split; [ | split; [ | split; [ | split; [ | split ] ] ] ] ] ].
  - simpl. destruct (Nat.ltb_spec 0
                       (length (firstn index l ++ skipn (S index) l)%list));
      [ | discriminate ].
    intros Habs. rewrite Habs in *. simpl in *. lia.
  - simpl. destruct (firstn index l ++ skipn (S index) l)%list; reflexivity.
  - intros m Hl. rewrite Hl. destruct index as [| [| index]]; reflexivity.
  - intros Hmany. simpl.
    destruct (Nat.ltb_spec 0
                (length (firstn index l ++ skipn (S index) l)%list));
      [ reflexivity | ].
    destruct (Nat.ltb_spec index (length l)); lia.
  - intros Hin. simpl.
    destruct (Nat.ltb_spec 0
                (length (firstn index l ++ skipn (S index) l)%list))
      as [Hpos | Hzero];
      destruct (Nat.ltb_spec index (length l)); simpl; lia.
  - intros Hout Hne.
    rewrite firstn_all2 by exact Hout.
    rewrite skipn_all2 by lia. rewrite app_nil_r.
    destruct l as [| m l'] eqn:El; [ contradiction | ].
    simpl. rewrite <- El. apply with_material_list_same.
  - unfold BudgetDialog.updateMaterialItem. fold l.
    destruct (nth_error l index) eqn:Hnth.
    + split; [ intros Habs; discriminate Habs | ].
      intros Hout. apply nth_error_None in Hout. congruence.
    + split; [ intros _; apply nth_error_None; exact Hnth | reflexivity ].
  - intros formData'. unfold BudgetDialog.updateMaterialItem. fold l.
    destruct (nth_error l index) eqn:Hnth;
      [ | intros Habs; discriminate Habs ].
    intros [= <-]. simpl.
    assert (Hin : (index < length l)%nat)
      by (apply nth_error_Some; congruence).
    rewrite length_app. cbn [length].
    rewrite length_firstn, length_skipn. lia.
Qed.

(** X26. In the budget request dialog, adding a row and then removing the
    row just added gives back the form as it was, provided the list had a
    row; on a list without rows the two steps leave one blank row. *)
Theorem add_then_remove_material (formData : BudgetDialog.BudgetRequestForm) :
  let l := BudgetDialog.material_list formData in
  (l <> [] ->
   BudgetDialog.removeMaterialItem (length l)
     (BudgetDialog.addMaterialItem formData)
   = formData)
  /\ (l = [] ->
      BudgetDialog.material_list
        (BudgetDialog.removeMaterialItem (length l)
           (BudgetDialog.addMaterialItem formData))
      = [BudgetDialog.blankItem]).
Proof.
  intros l. split.
  - intros Hne. unfold BudgetDialog.removeMaterialItem. cbv zeta.
    rewrite filter_index_removes.
    unfold BudgetDialog.addMaterialItem. cbn [BudgetDialog.material_list
      BudgetDialog.with_material_list]. fold l.
    rewrite firstn_app, Nat.sub_diag, firstn_all. cbn [firstn].
    rewrite app_nil_r, skipn_all2 by (rewrite length_app; simpl; lia).
    rewrite app_nil_r.
    destruct l as [| m l'] eqn:El; [ contradiction | ].
    cbn [length Nat.ltb Nat.leb]. rewrite <- El.
    subst l. destruct formData; simpl in *. rewrite El. reflexivity.
  - intros Hnil. subst l. rewrite Hnil.
    unfold BudgetDialog.removeMaterialItem, BudgetDialog.addMaterialItem.
    simpl. rewrite Hnil. reflexivity.
Qed.

(** X27. [handleSubmit] of the budget request dialog sends nothing to the
    store exactly when requester, account code or amount is empty, and then
    only shows the missing-fields message.  What it sends is an update of
    the edited request, or an insert when none is edited, always with
    status "PENDING" and with exactly the material rows whose item name is
    not blank after trimming, in their order.  [onSuccess] is called
    exactly when a request was sent and the store accepted it. *)
Theorem submit_validates_then_sends_pending
    (number : Type) (parseFloat : string -> number) (trim : string -> string)
    (editRequest : option string) (formData : BudgetDialog.BudgetRequestForm)
    (accepted submitting : bool) :
  let o := BudgetDialog.handleSubmit number parseFloat trim editRequest
             formData accepted submitting in
  let data :=
    {| BudgetDialog.data_requester := BudgetDialog.requester formData;
       BudgetDialog.data_request_date := BudgetDialog.request_date formData;
       BudgetDialog.data_account_code := BudgetDialog.account_code formData;
       BudgetDialog.data_amount := parseFloat (BudgetDialog.amount formData);
       BudgetDialog.data_note := BudgetDialog.note formData;
       BudgetDialog.data_material_list :=
         List.filter (fun m => negb (trim (BudgetDialog.item m) =? "")%string)
                     (BudgetDialog.material_list formData);
       BudgetDialog.data_status := "PENDING" |} in
  (BudgetDialog.sent number o = None <->
   BudgetDialog.requester formData = ""
   \/ BudgetDialog.account_code formData = ""
   \/ BudgetDialog.amount formData = "")
  /\ (BudgetDialog.sent number o = None ->
      BudgetDialog.shown number o = BudgetDialog.required_fields_missing
      /\ BudgetDialog.isSubmitting number o = submitting)
  /\ (BudgetDialog.sent number o <> None ->
      BudgetDialog.sent number o
      = Some (match editRequest with
              | Some id => BudgetDialog.update number id data
              | None => BudgetDialog.insert number data
              end)
      /\ BudgetDialog.isSubmitting number o = false)
  /\ (forall m, In m (BudgetDialog.data_material_list number data) <->
                In m (BudgetDialog.material_list formData)
                /\ trim (BudgetDialog.item m) <> "")
  /\ (BudgetDialog.onSuccess number o = true <->
      BudgetDialog.sent number o <> None /\ accepted = true).
Proof.
  intros o data. subst o data. unfold BudgetDialog.handleSubmit.
  destruct (String.eqb_spec (BudgetDialog.requester formData) "") as [Hr | Hr];
    destruct (String.eqb_spec (BudgetDialog.account_code formData) "")
      as [Hc | Hc];
    destruct (String.eqb_spec (BudgetDialog.amount formData) "") as [Ha | Ha];
    cbn [orb];
    try (split; [ split; [ intros _; tauto | reflexivity ] | ];
         split; [ intros _; split; reflexivity | ];
         split; [ intros Habs; exfalso; apply Habs; reflexivity | ];
         split; [ | split; [ intros Habs; discriminate Habs
                           | intros [Habs _]; exfalso; apply Habs; reflexivity ] ];
         intros m; cbn [BudgetDialog.data_material_list];
         rewrite filter_In;
         destruct (String.eqb_spec (trim (BudgetDialog.item m)) "");
         simpl; intuition congruence).
  destruct accepted; cbn [BudgetDialog.sent BudgetDialog.shown
    BudgetDialog.onSuccess BudgetDialog.isSubmitting];
    (split; [ split; [ intros Habs; discriminate Habs | tauto ] | ];
     split; [ intros Habs; discriminate Habs | ];
     split; [ intros _; split; reflexivity | ];
     split;
     [ intros m; cbn [BudgetDialog.data_material_list];
       rewrite filter_In;
       destruct (String.eqb_spec (trim (BudgetDialog.item m)) "");
       simpl; intuition congruence
     | split; [ intros H; split; [ discriminate | ]; try reflexivity;
                discriminate H
              | intros [_ H]; try reflexivity; discriminate H ] ]).
Qed.

(** ** The versions compared *)

(** X28. The three versions of the reducer differ on two actions only:
    [AttachedStore] and [MemoryStore] return the same state for every
    action but [CALCULATE_STATS], and [MirrorStore] returns the same state
    as [AttachedStore] for every action but [CALCULATE_STATS] and
    [ADD_MOVEMENT]. *)
Theorem reducers_agree (clock : Clock) (state : StockState)
    (action : StockAction) :
  (type action <> "CALCULATE_STATS" ->
   MemoryStore.stockReducer clock state action
   = AttachedStore.stockReducer clock state action)
  /\ (type action <> "CALCULATE_STATS" ->
      type action <> "ADD_MOVEMENT" ->
      MirrorStore.stockReducer clock state action
      = AttachedStore.stockReducer clock state action).
Proof.
  destruct action as [ty pl].
  unfold AttachedStore.stockReducer, MemoryStore.stockReducer,
    MirrorStore.stockReducer; simpl.
  revert pl. destruct (case_of ty) as [tag |] eqn:Htag; intros pl;
    [ | split; reflexivity ].
  apply case_of_sound in Htag. subst ty.
  destruct tag; simpl; split; intros; try reflexivity; contradiction.
Qed.

Lemma reducers_agree_witness :
  let state := stateOf [product "p1" "c1" 10 5 None] emptyFilter in
  let action := update_product (product "p1" "c1" 7 5 None) in
  (type action <> "CALCULATE_STATS" /\ type action <> "ADD_MOVEMENT")
  /\ MirrorStore.stockReducer fixedClock state action
     = AttachedStore.stockReducer fixedClock state action
  /\ products (MirrorStore.stockReducer fixedClock state
                 (add_movement (movement "p1" "out" 3)))
     <> products (AttachedStore.stockReducer fixedClock state
                    (add_movement (movement "p1" "out" 3))).
Proof.
  intros state action.
  assert (H1 : type action <> "CALCULATE_STATS") by discriminate.
  assert (H2 : type action <> "ADD_MOVEMENT") by discriminate.
  split; [ split; assumption | ].
  split; [ exact (proj2 (reducers_agree fixedClock state action) H1 H2) | ].
  discriminate.
Defined.

(** X29. With the same state and filter, every product the in-memory
    version of [getFilteredProducts] returns is also returned by the
    version of [AttachedStore], as long as the filter's stock level is
    absent, 'low' or 'out': the in-memory search looks at name and SKU
    only, the other one at the description as well. *)
Theorem memory_filter_within_attached (toLowerCase : string -> string)
    (state : StockState) (p : Product.t) :
  stockLevel (filter state) <> Some medium ->
  stockLevel (filter state) <> Some high ->
  In p (MemoryStore.getFilteredProducts toLowerCase state) ->
  In p (AttachedStore.getFilteredProducts toLowerCase state).
Proof.
  intros Hmedium Hhigh Hin.
  rewrite memory_getFilteredProducts_unfold in Hin.
  rewrite getFilteredProducts_conjunction.
  apply filter_In in Hin. destruct Hin as [Hin Hp].
  apply filter_In. split; [ exact Hin | ].
  apply andb_prop in Hp. destruct Hp as [Hp Hlevel].
  apply andb_prop in Hp. destruct Hp as [Hp Hsup].
  apply andb_prop in Hp. destruct Hp as [Hsearch Hcat].
  rewrite Hcat, Hsup. simpl.
  assert (Hl : matches_level (filter state) p = true).
  { unfold matches_level.
    destruct (stockLevel (filter state)) as [[| | |] |];
      try reflexivity; try congruence;
      rewrite <- Hlevel;
      unfold MemoryStore.getStockLevel, AttachedStore.getStockLevel;
      destruct (Product.current_stock p =? 0); try reflexivity;
      destruct (Product.current_stock p <=? Product.min_stock p);
      try reflexivity;
      destruct (Product.current_stock p <=? Product.min_stock p * 2);
      destruct (Product.max_stock p) as [m |]; simpl;
      try destruct (negb (m =? 0) && (m <=? Product.current_stock p));
      reflexivity. }
  rewrite Hl, andb_true_r. unfold matches_search.
  destruct (negb (is_set (searchTerm (filter state)))); [ reflexivity | ].
  simpl in *.
  apply orb_prop in Hsearch. destruct Hsearch as [-> | ->];
    [ reflexivity | rewrite orb_true_r; reflexivity ].
Qed.

Lemma memory_filter_within_attached_witness :
  let described :=
    {| Product.id := "p1"; Product.name := "Widget"; Product.sku := "SKU001";
       Product.description := Some "steel bolt";
       Product.category_id := "c1"; Product.supplier_id := "supplier-1";
       Product.current_stock := 3; Product.min_stock := 5;
       Product.max_stock := None; Product.unit_price := 100;
       Product.barcode := None; Product.location := None;
       Product.created_at := ""; Product.updated_at := "" |} in
  let byName := stateOf [described] (only_search "widget") in
  let byDescription := stateOf [described] (only_search "bolt") in
  (stockLevel (filter byName) <> Some medium
   /\ In described (MemoryStore.getFilteredProducts asciiLower byName))
  /\ In described (AttachedStore.getFilteredProducts asciiLower byName)
  /\ MemoryStore.getFilteredProducts asciiLower byDescription = []
  /\ AttachedStore.getFilteredProducts asciiLower byDescription = [described].
Proof.
  intros described byName byDescription.
  assert (H1 : stockLevel (filter byName) <> Some medium) by discriminate.
  assert (H2 : stockLevel (filter byName) <> Some high) by discriminate.
  assert (Hin : In described (MemoryStore.getFilteredProducts asciiLower byName))
    by (left; reflexivity).
  split; [ split; assumption | ].
  split; [ exact (memory_filter_within_attached asciiLower byName described
                    H1 H2 Hin) | ].
  split; reflexivity.
Defined.

(** X30. Each alert panel of the stock overview lists at most three items
    and announces the others by their number: the listed items are the
    first ones of the list, and listed and announced items together are all
    the items. *)
Theorem overview_panel_accounts_for_all (items : list Product.t) :
  (length (StockOverview.listed items) <= 3)%nat
  /\ (length (StockOverview.listed items)
      + default 0%nat (StockOverview.further items))%nat
     = length items
  /\ (StockOverview.further items = None <-> (length items <= 3)%nat)
  /\ exists others, items = (StockOverview.listed items ++ others)%list.
Proof.
  unfold StockOverview.listed, StockOverview.further.
  rewrite length_firstn.
  assert (Hothers : exists others, items = (firstn 3 items ++ others)%list)
    by (exists (skipn 3 items); symmetry; apply firstn_skipn).
  destruct (Nat.ltb_spec 3 (length items)) as [Hlt | Hle].
  - rewrite Nat.min_l by lia. cbn [from_option id].
    split; [ lia | ]. split; [ lia | ]. split; [ | exact Hothers ].
    split; [ intros H0; discriminate H0 | lia ].
  - rewrite Nat.min_r by lia. cbn [from_option id].
    split; [ lia | ]. split; [ lia | ]. split; [ | exact Hothers ].
    split; [ intros _; exact Hle | reflexivity ].
Qed.
